(** * Lead Script Generator: the classification-and-generation pipeline

    A shallow embedding of [src/app.py] (functions [detect_company_dna],
    [assign_priority], [generate_email_subject], [generate_email_body],
    [generate_linkedin_message] and [process_leads]) and the properties of
    the pipeline proved over it.

    Modelling decisions.
    - A Python [str] is a [string]: a sequence of characters, one character
      per element.  The text of the program is ASCII except for the em dash
      of the templates, which is kept as ONE character ([em_dash]) so that
      [len] and slicing count it once, as Python does.  [str.lower],
      [str.split] and [int] are modelled on ASCII text; characters above 127
      are treated as uncased and non-blank.
    - A cell of the input table is a [value]: a string, an integer, a
      boolean or NaN (the marker pandas uses for an empty cell).  Floats
      other than NaN are not modelled.
    - A Python [dict] with string keys is a [gmap string _]; [d.get(k, x)]
      is [get d k x].  A row of the table is the list of its
      (column, value) pairs in column order, as [row.items()] yields them.
    - Exceptions are explicit: a computation that can raise returns a
      [result].  The default argument of [dict.get] is evaluated before the
      call, so a default that raises makes the whole expression raise even
      when the key is present; the embedding keeps that order.
    - [int] is arbitrary precision; the interpreter's optional cap on the
      number of digits of a literal is a setting of the interpreter, not
      program text, and is not modelled. *)

From Stdlib Require Import String Ascii ZArith List Lia Bool.
From stdpp Require Import base gmap strings list pretty.

Open Scope string_scope.

(** ** The Python runtime the program uses *)

Module Py.

Inductive exn : Type :=
| AttributeError
| IndexError
| KeyError
| ValueError.

Inductive result (A : Type) : Type :=
| Ok (a : A)
| Raise (e : exn).
Arguments Ok {A} a.
Arguments Raise {A} e.

(** Sequencing: the first exception raised ends the computation.  With
    the instance, [x ← c; k] is stdpp's notation for it. *)
#[export] Instance result_bind : MBind result := λ A B k c,
  match c with
  | Ok a => k a
  | Raise e => Raise e
  end.

(** *** Characters and [str] methods *)

Definition code (c : ascii) : N := N_of_ascii c.

Definition between (lo hi : N) (c : ascii) : bool :=
  ((lo <=? code c) && (code c <=? hi))%N.

(** Blank characters for [str.split()]: tab, LF, VT, FF, CR, the four
    separators FS GS RS US, and space. *)
Definition is_space (c : ascii) : bool :=
  between 9 13 c || between 28 32 c.

(** Blank characters skipped by [int(...)] around the literal. *)
Definition is_int_space (c : ascii) : bool :=
  between 9 13 c || (code c =? 32)%N.

Definition is_digit (c : ascii) : bool := between 48 57 c.

Definition digit_value (c : ascii) : Z := Z.of_N (code c) - 48.

Definition lower_char (c : ascii) : ascii :=
  if between 65 90 c then ascii_of_N (code c + 32) else c.

(** [s.lower()] *)
Fixpoint lower (s : string) : string :=
  match s with
  | EmptyString => EmptyString
  | String c r => String (lower_char c) (lower r)
  end.

(** [s.replace(a, b)] for one-character [a] and [b] *)
Fixpoint replace_char (a b : ascii) (s : string) : string :=
  match s with
  | EmptyString => EmptyString
  | String c r =>
      String (if Ascii.eqb c a then b else c) (replace_char a b r)
  end.

(** [s.replace(a, '')] for a one-character [a] *)
Fixpoint remove_char (a : ascii) (s : string) : string :=
  match s with
  | EmptyString => EmptyString
  | String c r =>
      if Ascii.eqb c a then remove_char a r else String c (remove_char a r)
  end.

(** [w in s] *)
Fixpoint contains (w s : string) : bool :=
  String.prefix w s ||
  match s with
  | EmptyString => false
  | String _ r => contains w r
  end.

(** [s[:n]] *)
Fixpoint take (n : nat) (s : string) : string :=
  match n, s with
  | S m, String c r => String c (take m r)
  | _, _ => EmptyString
  end.

(** [s.split()]: the maximal runs of non-blank characters.  [tok] is the
    run being read. *)
Fixpoint split_from (tok : string) (s : string) : list string :=
  match s with
  | EmptyString =>
      match tok with EmptyString => [] | _ => [tok] end
  | String c r =>
      if is_space c then
        match tok with
        | EmptyString => split_from EmptyString r
        | _ => tok :: split_from EmptyString r
        end
      else split_from (tok +:+ String c EmptyString) r
  end.

Definition split (s : string) : list string := split_from EmptyString s.

(** [l[0]] *)
Definition item0 {A : Type} (l : list A) : result A :=
  match l with
  | [] => Raise IndexError
  | x :: _ => Ok x
  end.

(** *** [int(s)] on a string, base ten

    Leading blanks, an optional sign, decimal digits with single
    underscores allowed between digits, trailing blanks, end of string. *)

Fixpoint all_int_space (s : string) : bool :=
  match s with
  | EmptyString => true
  | String c r => is_int_space c && all_int_space r
  end.

(** [prev] tells whether the character just read was a digit. *)
Fixpoint int_digits (acc : Z) (prev : bool) (s : string) : option Z :=
  match s with
  | EmptyString => if prev then Some acc else None
  | String c r =>
      if is_digit c then int_digits (10 * acc + digit_value c) true r
      else if Ascii.eqb c "_" then
        if prev then int_digits acc false r else None
      else if prev && all_int_space s then Some acc
      else None
  end.

Definition int_signed (s : string) : option Z :=
  match s with
  | String c r =>
      if Ascii.eqb c "+" then int_digits 0 false r
      else if Ascii.eqb c "-" then Z.opp <$> int_digits 0 false r
      else int_digits 0 false s
  | EmptyString => None
  end.

Fixpoint int_leading (s : string) : option Z :=
  match s with
  | EmptyString => None
  | String c r => if is_int_space c then int_leading r else int_signed s
  end.

Definition int (s : string) : result Z :=
  match int_leading s with
  | Some n => Ok n
  | None => Raise ValueError
  end.

(** *** Scalar values *)

Inductive value : Type :=
| VStr (s : string)
| VInt (n : Z)
| VBool (b : bool)
| VNaN.

(** [str(v)], which is also what an f-string field [{v}] renders *)
Definition str (v : value) : string :=
  match v with
  | VStr s => s
  | VInt n => pretty n
  | VBool true => "True"
  | VBool false => "False"
  | VNaN => "nan"
  end.

(** [bool(v)]: the truth value tested by [if v] *)
Definition truthy (v : value) : bool :=
  match v with
  | VStr EmptyString => false
  | VStr _ => true
  | VInt n => negb (n =? 0)%Z
  | VBool b => b
  | VNaN => true
  end.

(** [v.split()]: only strings have the method *)
Definition value_split (v : value) : result (list string) :=
  match v with
  | VStr s => Ok (split s)
  | _ => Raise AttributeError
  end.

(** *** Dictionaries *)

(** [d.get(k, dflt)] *)
Definition get {A : Type} (d : gmap string A) (k : string) (dflt : A) : A :=
  default dflt (d !! k).

(** [d[k]] *)
Definition getitem {A : Type} (d : gmap string A) (k : string) : result A :=
  match d !! k with
  | Some x => Ok x
  | None => Raise KeyError
  end.

(** [d.get(k)] tested for truth: an absent key gives [None], which is
    false. *)
Definition get_truthy (d : gmap string value) (k : string) : bool :=
  match d !! k with
  | Some v => truthy v
  | None => false
  end.

(** [d.get(k, dflt)] where the key [k] is any scalar and the keys of [d]
    are strings: only an equal string finds an entry. *)
Definition get_by_value {A : Type} (d : gmap string A) (k : value) (dflt : A) : A :=
  match k with
  | VStr s => get d s dflt
  | _ => dflt
  end.

End Py.

Import Py.

(** ** Configuration *)

(** The em dash of the templates, as one character. *)
Definition em_dash : string := String (ascii_of_nat 151) EmptyString.

Record profile : Type := {
  pain_points : list string;
  values : list string;
  tone : string
}.

Definition COMPANY_DNA_PROFILES : gmap string profile :=
  <["High-Growth Startup" :=
      {| pain_points := ["scaling quickly"; "resource constraints"; "proving product-market fit"];
         values := ["speed"; "innovation"; "disruption"];
         tone := "energetic and bold" |}]>
  (<["Enterprise" :=
      {| pain_points := ["legacy systems"; "cross-team alignment"; "compliance requirements"];
         values := ["stability"; "proven solutions"; "risk mitigation"];
         tone := "professional and strategic" |}]>
  (<["Mid-Market" :=
      {| pain_points := ["growing pains"; "process optimization"; "competitive pressure"];
         values := ["efficiency"; "growth"; "partnership"];
         tone := "balanced and consultative" |}]>
  (<["Agency/Consultancy" :=
      {| pain_points := ["client delivery"; "billable utilization"; "differentiation"];
         values := ["expertise"; "client success"; "innovation"];
         tone := "collaborative and expert" |}]> ∅))).

(** ** Script generation engine *)

(** The keyword rules of [detect_company_dna] (its lines after the
    size-based block). *)
Definition keyword_based_detection (company : string) : string :=
  if existsb (λ word, contains word company)
       ["consulting"; "agency"; "partners"; "group"]
  then "Agency/Consultancy"
  else if existsb (λ word, contains word company)
       ["inc"; "corp"; "global"; "international"]
  then "Enterprise"
  else "Mid-Market".

(** The three size classes of [detect_company_dna]. *)
Definition size_based_detection (emp_count : Z) : string :=
  if (emp_count <? 50)%Z then "High-Growth Startup"
  else if (emp_count <? 500)%Z then "Mid-Market"
  else "Enterprise".

(** [try: ... int(...) ... except: pass] catches every exception, so the
    function always returns. *)
Definition detect_company_dna (row : gmap string value) : string :=
  let company := lower (str (get row "company" (VStr ""))) in
  let title := lower (str (get row "title" (VStr ""))) in
  let employees := get row "employees" (get row "company_size" (VStr "")) in
  if truthy employees then
    match int (remove_char "+" (remove_char "," (str employees))) with
    | Ok emp_count => size_based_detection emp_count
    | Raise _ => keyword_based_detection company
    end
  else keyword_based_detection company.

Definition assign_priority (row : gmap string value) : string :=
  let title := lower (str (get row "title" (VStr ""))) in
  if existsb (λ level, contains level title)
       ["ceo"; "cro"; "cmo"; "coo"; "chief"; "vp"; "vice president"; "head of"]
  then "P1 - Hot"
  else if existsb (λ level, contains level title)
       ["director"; "senior"; "manager"; "lead"]
  then "P2 - Warm"
  else "P3 - Nurture".

(** [row.get('first_name', row.get('name', 'there').split()[0])]: the
    default is computed first, and computing it can raise. *)
Definition first_name_of (row : gmap string value) : result value :=
  parts ← value_split (get row "name" (VStr "there"));
  first ← item0 parts;
  Ok (get row "first_name" (VStr first)).

Definition subjects (first_name company value_prop : string) : gmap string (list string) :=
  <["High-Growth Startup" :=
      [first_name +:+ " - scaling " +:+ company +:+ "'s revenue engine?";
       "Quick win for " +:+ company +:+ "'s growth";
       first_name +:+ ", " +:+ company +:+ " + " +:+ value_prop +:+ "?"]]>
  (<["Enterprise" :=
      ["Strategic alignment: " +:+ company +:+ " revenue operations";
       first_name +:+ " - optimizing " +:+ company +:+ "'s GTM execution";
       "Enterprise " +:+ value_prop +:+ " for " +:+ company]]>
  (<["Mid-Market" :=
      [first_name +:+ " - " +:+ company +:+ "'s next growth lever";
       "Helping " +:+ company +:+ " scale smarter";
       first_name +:+ ", quick question about " +:+ company]]>
  (<["Agency/Consultancy" :=
      ["Partnership opportunity: " +:+ company;
       first_name +:+ " - elevating " +:+ company +:+ "'s client outcomes";
       "For " +:+ company +:+ ": " +:+ value_prop]]> ∅))).

Definition generate_email_subject
    (row : gmap string value) (company_dna : value) (value_prop : string) : result string :=
  first_name ← first_name_of row;
  let company := get row "company" (VStr "your team") in
  let subjects := subjects (str first_name) (str company) value_prop in
  fallback ← getitem subjects "Mid-Market";
  item0 (get_by_value subjects company_dna fallback).

Definition templates (first_name company pain value_prop sender_name : string)
    : gmap string string :=
  <["High-Growth Startup" :=
"Hi " +:+ first_name +:+ ",

Saw " +:+ company +:+ " is making moves " +:+ em_dash +:+ " congrats on the momentum.

I've been helping fast-growing teams like yours solve " +:+ pain +:+ " through " +:+ value_prop +:+ ". The results: faster pipeline, cleaner data, and sales teams that actually trust their CRM.

Would a 15-minute call this week make sense? Happy to share a quick framework that's worked for similar companies.

Best,
" +:+ sender_name]>
  (<["Enterprise" :=
"Hi " +:+ first_name +:+ ",

I've been following " +:+ company +:+ "'s trajectory and wanted to reach out with a relevant observation.

Many enterprise revenue leaders I work with are navigating " +:+ pain +:+ " while trying to drive predictable growth. I specialize in " +:+ value_prop +:+ " " +:+ em_dash +:+ " helping teams like yours turn operational complexity into competitive advantage.

Would you be open to a brief conversation to explore alignment?

Best regards,
" +:+ sender_name]>
  (<["Mid-Market" :=
"Hi " +:+ first_name +:+ ",

Quick note " +:+ em_dash +:+ " I work with mid-market companies like " +:+ company +:+ " on " +:+ value_prop +:+ ".

The common challenge I see: " +:+ pain +:+ ". The solution doesn't have to be complex.

If this resonates, I'd love to share a framework that's helped similar teams. 15 minutes " +:+ em_dash +:+ " no pitch, just value.

Best,
" +:+ sender_name]>
  (<["Agency/Consultancy" :=
"Hi " +:+ first_name +:+ ",

I came across " +:+ company +:+ " and was impressed by your work.

I partner with agencies and consultancies on " +:+ value_prop +:+ " " +:+ em_dash +:+ " specifically helping with " +:+ pain +:+ ". It's often the difference between good delivery and exceptional client outcomes.

Would you be open to a quick conversation about how we might collaborate?

Best,
" +:+ sender_name]> ∅))).

Definition generate_email_body
    (row : gmap string value) (company_dna : value) (value_prop sender_name : string)
    : result string :=
  first_name ← first_name_of row;
  let company := get row "company" (VStr "your company") in
  let title := get row "title" (VStr "your role") in
  fallback_profile ← getitem COMPANY_DNA_PROFILES "Mid-Market";
  let profile := get_by_value COMPANY_DNA_PROFILES company_dna fallback_profile in
  pain ← item0 (pain_points profile);
  let templates := templates (str first_name) (str company) pain value_prop sender_name in
  fallback ← getitem templates "Mid-Market";
  Ok (get_by_value templates company_dna fallback).

Definition messages (first_name company value_prop : string) : gmap string string :=
  <["High-Growth Startup" :=
      "Hi " +:+ first_name +:+ " " +:+ em_dash +:+ " impressed by " +:+ company
      +:+ "'s growth. I work on " +:+ value_prop
      +:+ " for scaling teams. Would love to connect and share ideas."]>
  (<["Enterprise" :=
      "Hi " +:+ first_name +:+ " " +:+ em_dash
      +:+ " I help enterprise revenue teams with " +:+ value_prop
      +:+ ". Your work at " +:+ company +:+ " caught my attention. Let's connect."]>
  (<["Mid-Market" :=
      "Hi " +:+ first_name +:+ " " +:+ em_dash +:+ " " +:+ company
      +:+ " looks like a great fit for some ideas I have on " +:+ value_prop
      +:+ ". Would love to connect."]>
  (<["Agency/Consultancy" :=
      "Hi " +:+ first_name +:+ " " +:+ em_dash +:+ " I partner with agencies on "
      +:+ value_prop +:+ ". " +:+ company +:+ "'s approach resonates. Let's connect?"]> ∅))).

(** [msg[:295] + "..." if len(msg) > 300 else msg] *)
Definition truncate_message (msg : string) : string :=
  if (300 <? String.length msg)%nat then take 295 msg +:+ "..." else msg.

Definition generate_linkedin_message
    (row : gmap string value) (company_dna : value) (value_prop : string) : result string :=
  first_name ← first_name_of row;
  let company := get row "company" (VStr "your company") in
  let messages := messages (str first_name) (str company) value_prop in
  fallback ← getitem messages "Mid-Market";
  let msg := get_by_value messages company_dna fallback in
  Ok (truncate_message msg).

(** ** Batch processing *)

(** A row of the input table: its (column, value) pairs in column order. *)
Definition raw_record : Type := list (string * value).

(** [{k.lower().replace(' ', '_'): v for k, v in row.items()}]: when two
    columns normalise to the same key, the later one wins. *)
Definition normalize_key (k : string) : string := replace_char " " "_" (lower k).

Definition row_dict_of (row : raw_record) : gmap string value :=
  foldl (λ d kv, <[normalize_key kv.1 := kv.2]> d) ∅ row.

(** [row_dict.get('name', 'there').split()[0] if row_dict.get('name') else 'there'] *)
Definition name_fallback (row_dict : gmap string value) : result value :=
  if get_truthy row_dict "name" then
    parts ← value_split (get row_dict "name" (VStr "there"));
    first ← item0 parts;
    Ok (VStr first)
  else Ok (VStr "there").

(** The dictionary literal [lead_data], with [from_name] the value of the
    conditional expression on [name]. *)
Definition lead_data_with (row_dict : gmap string value) (from_name : value)
    : gmap string value :=
  <["first_name" :=
      get row_dict "first_name" (get row_dict "firstname" from_name)]>
  (<["last_name" :=
      get row_dict "last_name" (get row_dict "lastname" (VStr ""))]>
  (<["company" :=
      get row_dict "company"
        (get row_dict "company_name" (get row_dict "organization" (VStr "Unknown")))]>
  (<["title" :=
      get row_dict "title"
        (get row_dict "job_title" (get row_dict "position" (VStr "")))]>
  (<["email" :=
      get row_dict "email" (get row_dict "email_address" (VStr ""))]>
  (<["linkedin" :=
      get row_dict "linkedin"
        (get row_dict "linkedin_url" (get row_dict "profile_url" (VStr "")))]>
  (<["employees" :=
      get row_dict "employees"
        (get row_dict "company_size" (get row_dict "size" (VStr "")))]> ∅)))))).

(** The dictionary [lead_data] built for one row. *)
Definition lead_data_of (row_dict : gmap string value) : result (gmap string value) :=
  from_name ← name_fallback row_dict;
  Ok (lead_data_with row_dict from_name).

(** The Normalizer step: key normalisation, then field extraction. *)
Definition normalize (row : raw_record) : result (gmap string value) :=
  lead_data_of (row_dict_of row).

(** One row of the output table. *)
Record result_row : Type := {
  First_Name : value;
  Last_Name : value;
  Company : value;
  Title : value;
  Email : value;
  LinkedIn : value;
  Priority : string;
  Company_DNA : value;
  Email_Subject : string;
  Email_Body : string;
  LinkedIn_Message : string
}.

(** [lead_data[k]] *)
Definition field (lead_data : gmap string value) (k : string) : result value :=
  getitem lead_data k.

(** The body of the [for] loop of [process_leads], for one row. *)
Definition process_row
    (row : raw_record) (value_prop sender_name : string) (auto_detect_dna : bool)
    : result result_row :=
  let row_dict := row_dict_of row in
  lead_data ← lead_data_of row_dict;
  let company_dna :=
    if auto_detect_dna then VStr (detect_company_dna lead_data)
    else get row_dict "company_dna" (VStr "Mid-Market") in
  let priority := assign_priority lead_data in
  first_name ← field lead_data "first_name";
  last_name ← field lead_data "last_name";
  company ← field lead_data "company";
  title ← field lead_data "title";
  email ← field lead_data "email";
  linkedin ← field lead_data "linkedin";
  subject ← generate_email_subject lead_data company_dna value_prop;
  body ← generate_email_body lead_data company_dna value_prop sender_name;
  message ← generate_linkedin_message lead_data company_dna value_prop;
  Ok {| First_Name := first_name;
        Last_Name := last_name;
        Company := company;
        Title := title;
        Email := email;
        LinkedIn := linkedin;
        Priority := priority;
        Company_DNA := company_dna;
        Email_Subject := subject;
        Email_Body := body;
        LinkedIn_Message := message |}.

(** The loop: [results] is the list built so far, each row appended at its
    end; the first exception ends the loop. *)
Fixpoint process_rows
    (rows : list raw_record) (value_prop sender_name : string) (auto_detect_dna : bool)
    (results : list result_row) : result (list result_row) :=
  match rows with
  | [] => Ok results
  | row :: rest =>
      result ← process_row row value_prop sender_name auto_detect_dna;
      process_rows rest value_prop sender_name auto_detect_dna (results ++ [result])
  end.

(** [df] is the table, as the list of its rows in order ([df.iterrows()]);
    the returned list is the list of rows of the resulting table. *)
Definition process_leads
    (df : list raw_record) (value_prop sender_name : string) (auto_detect_dna : bool)
    : result (list result_row) :=
  process_rows df value_prop sender_name auto_detect_dna [].

(** ** The page *)

(** [PRIORITY_CRITERIA], in the order its keys are written. *)
Definition PRIORITY_CRITERIA : list (string * string) :=
  [("P1 - Hot", "Decision maker at target company with active buying signals");
   ("P2 - Warm", "Right persona, good company fit, no immediate signals");
   ("P3 - Nurture", "Good fit but needs education or timing alignment")].

(** [results_df[results_df['Priority'] == priority]] on a table that has
    rows (and so a [Priority] column): the rows with that priority, in
    their order. *)
Definition with_priority (priority : string) (results_df : list result_row)
    : list result_row :=
  filter (λ r, Priority r = priority) results_df.

(** The four figures of the metrics row of [main]. *)
Record metrics : Type := {
  total_leads : nat;
  p1_count : nat;
  p2_count : nat;
  p3_count : nat
}.

(** A table built from no result row ([pd.DataFrame([])]) has no column:
    [results_df['Priority']] then raises [KeyError], after "Total Leads"
    has been shown and before any of the three counts is. *)
Definition priority_metrics (results_df : list result_row) : result metrics :=
  match results_df with
  | [] => Raise KeyError
  | _ :: _ =>
      Ok {| total_leads := length results_df;
            p1_count := length (with_priority "P1 - Hot" results_df);
            p2_count := length (with_priority "P2 - Warm" results_df);
            p3_count := length (with_priority "P3 - Nurture" results_df) |}
  end.

(** The options of the "Filter by Priority" box:
    [["All"] + list(PRIORITY_CRITERIA.keys())]. *)
Definition priority_options : list string := "All" :: PRIORITY_CRITERIA.*1.

(** The rows the preview tab shows for the chosen option. *)
Definition filtered_df (priority_filter : string) (results_df : list result_row)
    : list result_row :=
  if String.eqb priority_filter "All" then results_df
  else with_priority priority_filter results_df.

(** The "Generate Scripts" button of [main], inside its [try]: a returned
    table is stored in [st.session_state['results']]; an exception leaves
    the session as it was and is what [st.error] reports.  The pair is the
    session entry afterwards and the exception reported, if any. *)
Definition generate_scripts_clicked
    (session_results : option (list result_row))
    (df : list raw_record) (value_prop sender_name : string) (auto_detect : bool)
    : option (list result_row) * option exn :=
  match process_leads df value_prop sender_name auto_detect with
  | Ok results_df => (Some results_df, None)
  | Raise e => (session_results, Some e)
  end.

(** ** The pipeline on concrete rows *)

Definition jane : raw_record :=
  [("name", VStr "Jane Doe"); ("company", VStr "Acme Inc");
   ("title", VStr "VP of Sales"); ("employees", VStr "800")].

Definition blank_name_row : raw_record :=
  [("Name", VStr "   "); ("Company", VStr "Acme")].

Definition missing_name_row : raw_record :=
  [("Name", VNaN); ("Company", VStr "Acme")].

(** The table of a CSV file with the lines [Name,Company], [Jane Doe,Acme
    Inc] and [,Acme]: the empty cell is read as NaN. *)
Definition missing_name_table : list raw_record :=
  [[("Name", VStr "Jane Doe"); ("Company", VStr "Acme Inc")];
   [("Name", VNaN); ("Company", VStr "Acme")]].

(** A row with its [First Name] and [Company] cells empty, read as NaN. *)
Definition empty_cells_row : raw_record :=
  [("First Name", VNaN); ("Company", VNaN); ("Email", VStr "jane@acme.example")].

Definition long_value_prop : string :=
  let phrase := "revenue operations, pipeline hygiene and forecasting " in
  phrase +:+ phrase +:+ phrase +:+ phrase +:+ phrase +:+ phrase.

(** ** Second readings, following the wording of the specification *)

(** "Stripping commas and trailing [+]": every comma goes, and the plus
    signs that end the string. *)
Fixpoint strip_trailing (a : ascii) (s : string) : string :=
  match s with
  | EmptyString => EmptyString
  | String c r =>
      match strip_trailing a r with
      | EmptyString => if Ascii.eqb c a then EmptyString else String c EmptyString
      | t => String c t
      end
  end.

Definition strip_commas_and_trailing_plus (s : string) : string :=
  strip_trailing "+" (remove_char "," s).

(** "Removes every [,] and every [+] at any position": keep the other
    characters, in order. *)
Fixpoint without_commas_and_pluses (s : string) : string :=
  match s with
  | EmptyString => EmptyString
  | String c r =>
      if Ascii.eqb c "," || Ascii.eqb c "+" then without_commas_and_pluses r
      else String c (without_commas_and_pluses r)
  end.

(** "Case-insensitive substring match": some stretch of [s] reads [w] once
    lower-cased, for a keyword [w] of the list. *)
Definition mentions (s : string) (keywords : list string) : Prop :=
  ∃ w before stretch after,
    In w keywords ∧ s = before +:+ stretch +:+ after ∧ lower stretch = w.

(** "First present of" a chain of synonym keys, else the fallback. *)
Fixpoint first_present (d : gmap string value) (keys : list string) (fallback : value) : value :=
  match keys with
  | [] => fallback
  | k :: ks =>
      match d !! k with
      | Some v => v
      | None => first_present d ks fallback
      end
  end.

(** The rows on which the [name] column cannot make the Normalizer raise:
    no [name] after key normalisation, a false one, or a string with a
    non-blank character. *)
Definition name_usable (row_dict : gmap string value) : bool :=
  match row_dict !! "name" with
  | None => true
  | Some (VStr s) =>
      match s, split s with
      | EmptyString, _ => true
      | _, [] => false
      | _, _ :: _ => true
      end
  | Some v => negb (truthy v)
  end.

(** The value a row holds under a normalised key, read off the columns:
    that of the last column whose name normalises to the key. *)
Fixpoint last_column (key : string) (row : raw_record) : option value :=
  match row with
  | [] => None
  | (k, v) :: rest =>
      match last_column key rest with
      | Some w => Some w
      | None => if String.eqb (normalize_key k) key then Some v else None
      end
  end.

(** A [name] cell of blanks only, and a true [name] cell that is not a
    string: the two ways the conditional expression on [name] raises. *)
Definition name_blank (row_dict : gmap string value) : bool :=
  match row_dict !! "name" with
  | Some (VStr (String c s)) =>
      match split (String c s) with [] => true | _ :: _ => false end
  | _ => false
  end.

Definition name_not_text (row_dict : gmap string value) : bool :=
  match row_dict !! "name" with
  | Some (VStr _) | None => false
  | Some v => truthy v
  end.

(** The number a string of decimal digits writes, after the digits already
    read as [acc]. *)
Fixpoint digits_value (acc : Z) (s : string) : Z :=
  match s with
  | EmptyString => acc
  | String c r => digits_value (10 * acc + digit_value c) r
  end.

Fixpoint all_digits (s : string) : bool :=
  match s with
  | EmptyString => true
  | String c r => is_digit c && all_digits r
  end.

(** [x] occurs in [s]. *)
Definition occurs (x s : string) : Prop :=
  ∃ before after, s = before +:+ x +:+ after.

(** Blank characters only; no blank character. *)
Fixpoint all_blank (s : string) : bool :=
  match s with
  | EmptyString => true
  | String c r => is_space c && all_blank r
  end.

Fixpoint no_blank (s : string) : bool :=
  match s with
  | EmptyString => true
  | String c r => negb (is_space c) && no_blank r
  end.

(** Nothing, or something that starts with a blank. *)
Definition word_end (s : string) : bool :=
  match s with
  | EmptyString => true
  | String c _ => is_space c
  end.

(** The keyword lists of the two classifiers, as the specification gives
    them. *)
Definition agency_keywords : list string :=
  ["consulting"; "agency"; "partners"; "group"].

Definition enterprise_keywords : list string :=
  ["inc"; "corp"; "global"; "international"].

Definition p1_keywords : list string :=
  ["ceo"; "cro"; "cmo"; "coo"; "chief"; "vp"; "vice president"; "head of"].

Definition p2_keywords : list string :=
  ["director"; "senior"; "manager"; "lead"].

(** An [employees] value the size rule of the program acts on: true, and
    an integer literal once the program has deleted its commas and plus
    signs. *)
Definition usable_employees (v : value) : bool :=
  truthy v &&
  match int (remove_char "+" (remove_char "," (str v))) with
  | Ok _ => true
  | Raise _ => false
  end.

(** An archetype key that selects a bundle other than the "Mid-Market"
    one. *)
Definition selects_other_bundle (company_dna : value) : bool :=
  match company_dna with
  | VStr s =>
      String.eqb s "High-Growth Startup" || String.eqb s "Enterprise"
      || String.eqb s "Agency/Consultancy"
  | _ => false
  end.

(** ** Strings *)

Section strings.
Implicit Types (s t w : string) (c : ascii).

Lemma app_cons c s t : String c s +:+ t = String c (s +:+ t).
Proof. reflexivity. Qed.

Lemma length_app s t :
  String.length (s +:+ t) = (String.length s + String.length t)%nat.
Proof. induction s as [|c s IH]; simpl; [done | by rewrite IH]. Qed.

Lemma length_take n s : (String.length (take n s) <= n)%nat.
Proof.
  revert s; induction n as [|n IH]; intros [|c s]; simpl; try lia.
  specialize (IH s); lia.
Qed.

Lemma lower_app s t : lower (s +:+ t) = lower s +:+ lower t.
Proof. induction s as [|c s IH]; simpl; [done | by rewrite IH]. Qed.

(** A cut of [lower s] is the image of a cut of [s]. *)
Lemma lower_cut s a b :
  lower s = a +:+ b → ∃ a' b', s = a' +:+ b' ∧ lower a' = a ∧ lower b' = b.
Proof.
  revert s; induction a as [|c a IH]; intros s Hs.
  - by exists EmptyString, s.
  - destruct s as [|c' s]; simpl in Hs; [done |].
    injection Hs as Hc Hs.
    destruct (IH _ Hs) as (a' & b' & -> & <- & <-).
    exists (String c' a'), b'. by rewrite <- Hc.
Qed.

Lemma prefix_app w s :
  String.prefix w s = true ↔ ∃ after, s = w +:+ after.
Proof.
  revert s; induction w as [|c w IH]; intros s.
  - split; [by exists s | by destruct s].
  - destruct s as [|c' s]; simpl; [split; [done | by intros [? ?]] |].
    destruct (ascii_dec c c') as [->|Hne].
    + rewrite IH. split; intros [after H]; exists after;
        rewrite app_cons in *; congruence.
    + split; [done | intros [after H]; rewrite app_cons in H; congruence].
Qed.

(** [w in s] finds exactly the occurrences of [w]. *)
Lemma contains_app w s :
  contains w s = true ↔ ∃ before after, s = before +:+ w +:+ after.
Proof.
  induction s as [|c s IH].
  - cbn [contains]. rewrite orb_false_r, prefix_app. split.
    + intros [after H]. by exists EmptyString, after.
    + intros ([|? ?] & after & H); [by exists after | done].
  - cbn [contains]. rewrite orb_true_iff, prefix_app, IH. split.
    + intros [[after H] | (before & after & H)].
      * by exists EmptyString, after.
      * exists (String c before), after. by rewrite app_cons, H.
    + intros ([|c' before] & after & H).
      * left. by exists after.
      * right. exists before, after. rewrite app_cons in H. congruence.
Qed.

(** The program's test [any(w in s.lower() for w in keywords)] is the
    case-insensitive substring match. *)
Lemma existsb_contains_mentions s keywords :
  existsb (λ w, contains w (lower s)) keywords = true ↔ mentions s keywords.
Proof.
  rewrite existsb_exists. split.
  - intros (w & Hin & Hw). apply contains_app in Hw as (a & b & Hw).
    apply lower_cut in Hw as (a' & r & -> & Ha & Hr).
    apply lower_cut in Hr as (m & b' & -> & Hm & Hb).
    by exists w, a', m, b'.
  - intros (w & a & m & b & Hin & -> & Hm).
    exists w. split; [done |]. apply contains_app.
    exists (lower a), (lower b). by rewrite !lower_app, Hm.
Qed.

(** Every word [split] returns has a character. *)
Lemma split_from_nonempty s tok x :
  In x (split_from tok s) → x ≠ EmptyString.
Proof.
  revert tok; induction s as [|c s IH]; intros tok; simpl.
  - destruct tok; simpl; [done | intros [<- | []]; done].
  - destruct (is_space c).
    + destruct tok; simpl; [apply IH |].
      intros [<- | H]; [done | by eapply IH].
    + apply IH.
Qed.

End strings.

(** ** Integer literals *)

Section int_literals.
Implicit Types (s t : string) (c : ascii) (n acc : Z).

Local Ltac by_cases_on c :=
  destruct c as [[] [] [] [] [] [] [] []]; vm_compute; try done; intuition congruence.

Lemma digit_not_plus c : is_digit c = true → Ascii.eqb c "+" = false.
Proof. by_cases_on c. Qed.

Lemma digit_not_minus c : is_digit c = true → Ascii.eqb c "-" = false.
Proof. by_cases_on c. Qed.

Lemma digit_not_int_space c : is_digit c = true → is_int_space c = false.
Proof. by_cases_on c. Qed.

Lemma int_space_not_plus c : is_int_space c = true → Ascii.eqb c "+" = false.
Proof. by_cases_on c. Qed.

Lemma underscore_not_plus c : Ascii.eqb c "_" = true → Ascii.eqb c "+" = false.
Proof. by_cases_on c. Qed.

Lemma all_int_space_no_plus s : all_int_space s = true → remove_char "+" s = s.
Proof.
  induction s as [|c s IH]; simpl; [done |].
  intros [Hc Hs]%andb_true_iff. by rewrite (int_space_not_plus c Hc), IH.
Qed.

(** A string the digit reader accepts holds no plus sign. *)
Lemma int_digits_no_plus s acc prev n :
  int_digits acc prev s = Some n → remove_char "+" s = s.
Proof.
  revert acc prev; induction s as [|c s IH]; intros acc prev; [done |].
  cbn [int_digits remove_char].
  destruct (is_digit c) eqn:Hd.
  { rewrite (digit_not_plus c Hd). intros H. by rewrite (IH _ _ H). }
  destruct (Ascii.eqb c "_") eqn:Hu.
  { rewrite (underscore_not_plus c Hu). destruct prev; [|done].
    intros H. by rewrite (IH _ _ H). }
  destruct prev; [|done]. cbn [andb].
  destruct (all_int_space (String c s)) eqn:Hsp; [|done].
  intros _. apply (all_int_space_no_plus (String c s) Hsp).
Qed.

(** With no digit read yet, the digit reader wants a digit first. *)
Lemma int_digits_starts_with_digit s acc n :
  int_digits acc false s = Some n →
  ∃ c r, s = String c r ∧ is_digit c = true.
Proof.
  destruct s as [|c r]; [done |]. cbn [int_digits].
  destruct (is_digit c) eqn:Hd; [by exists c, r |].
  by destruct (Ascii.eqb c "_").
Qed.

Lemma int_leading_of_digits s n :
  int_digits 0 false s = Some n → int_leading s = Some n.
Proof.
  intros H. destruct (int_digits_starts_with_digit _ _ _ H) as (c & r & -> & Hd).
  cbn [int_leading int_signed].
  by rewrite (digit_not_int_space c Hd), (digit_not_plus c Hd), (digit_not_minus c Hd).
Qed.

(** Deleting the plus signs of a literal [int] accepts leaves its value:
    the only plus sign it can hold is the sign. *)
Lemma int_leading_remove_plus s n :
  int_leading s = Some n → int_leading (remove_char "+" s) = Some n.
Proof.
  induction s as [|c s IH]; [done |].
  cbn [int_leading remove_char].
  destruct (is_int_space c) eqn:Hsp.
  { rewrite (int_space_not_plus c Hsp). cbn [int_leading]. by rewrite Hsp. }
  cbn [int_signed].
  destruct (Ascii.eqb c "+") eqn:Hp.
  { intros H. rewrite (int_digits_no_plus _ _ _ _ H). by apply int_leading_of_digits. }
  cbn [int_leading int_signed]. rewrite Hsp, Hp.
  destruct (Ascii.eqb c "-") eqn:Hm.
  - destruct (int_digits 0 false s) as [m|] eqn:Hds; [|done].
    by rewrite (int_digits_no_plus _ _ _ _ Hds), Hds.
  - intros H. pose proof (int_digits_no_plus _ _ _ _ H) as Hno.
    cbn [remove_char] in Hno. rewrite Hp in Hno.
    injection Hno as Hno. by rewrite Hno.
Qed.

Lemma remove_strip_trailing a s :
  remove_char a (strip_trailing a s) = remove_char a s.
Proof.
  induction s as [|c s IH]; [done |].
  cbn [strip_trailing remove_char].
  destruct (strip_trailing a s) as [|c' t] eqn:E.
  - rewrite <- IH. cbn [remove_char].
    destruct (Ascii.eqb c a) eqn:Hc; [done |]. cbn [remove_char]. by rewrite Hc.
  - cbn [remove_char] in *. by rewrite IH.
Qed.

(** What the program deletes before [int] is what the specification's
    stripping deletes, and more; on a literal that reads as an integer
    after the specification's stripping the two agree. *)
Lemma int_strip_agree s n :
  int (strip_commas_and_trailing_plus s) = Ok n →
  int (remove_char "+" (remove_char "," s)) = Ok n.
Proof.
  unfold int, strip_commas_and_trailing_plus.
  destruct (int_leading (strip_trailing "+" (remove_char "," s))) as [m|] eqn:E; [|done].
  intros [= <-]. apply int_leading_remove_plus in E.
  by rewrite remove_strip_trailing in E; rewrite E.
Qed.

Lemma without_commas_and_pluses_remove s :
  without_commas_and_pluses s = remove_char "+" (remove_char "," s).
Proof.
  induction s as [|c s IH]; [done |].
  cbn [without_commas_and_pluses remove_char].
  destruct (Ascii.eqb c ",") eqn:Hc; cbn [orb]; [done |].
  cbn [remove_char]. destruct (Ascii.eqb c "+"); [done | by rewrite IH].
Qed.

End int_literals.

(** ** Archetype detection *)

Lemma keyword_based_detection_not_startup company :
  keyword_based_detection company ≠ "High-Growth Startup".
Proof.
  unfold keyword_based_detection.
  by repeat match goal with |- context [if ?b then _ else _] => destruct b end.
Qed.

Lemma detect_company_dna_unusable row :
  usable_employees (get row "employees" (get row "company_size" (VStr ""))) = false →
  detect_company_dna row =
    keyword_based_detection (lower (str (get row "company" (VStr "")))).
Proof.
  unfold usable_employees, detect_company_dna.
  destruct (truthy _); [|done].
  by destruct (int _).
Qed.

Lemma detect_company_dna_sized row n :
  truthy (get row "employees" (get row "company_size" (VStr ""))) = true →
  int (remove_char "+" (remove_char ","
         (str (get row "employees" (get row "company_size" (VStr "")))))) = Ok n →
  detect_company_dna row = size_based_detection n.
Proof. unfold detect_company_dna. by intros -> ->. Qed.

(** The size rule on a string that reads as an integer after the
    specification's stripping. *)
Lemma detect_company_dna_stripped (row : gmap string value) (s : string) (n : Z) :
  row !! "employees" = Some (VStr s) →
  int (strip_commas_and_trailing_plus s) = Ok n →
  detect_company_dna row = size_based_detection n.
Proof.
  intros Hrow Hint.
  apply detect_company_dna_sized; unfold get; rewrite Hrow; simpl.
  - destruct s; [by vm_compute in Hint | done].
  - by apply int_strip_agree.
Qed.

(** C2: when the [employees] string of a lead reads as an integer [n] after
    its commas and trailing plus signs are stripped, the archetype is
    decided by [n] alone, whatever the company name: below 50
    "High-Growth Startup", from 50 to 499 "Mid-Market", from 500 on
    "Enterprise". *)
Theorem size_rule_decides (row : gmap string value) (s : string) (n : Z) :
  row !! "employees" = Some (VStr s) →
  int (strip_commas_and_trailing_plus s) = Ok n →
  ((n < 50)%Z → detect_company_dna row = "High-Growth Startup") ∧
  ((50 <= n < 500)%Z → detect_company_dna row = "Mid-Market") ∧
  ((500 <= n)%Z → detect_company_dna row = "Enterprise").
Proof.
  intros Hrow Hint.
  rewrite (detect_company_dna_stripped row s n Hrow Hint).
  unfold size_based_detection.
  repeat split; intros ?;
    destruct (Z.ltb_spec n 50); try lia; destruct (Z.ltb_spec n 500); done || lia.
Qed.

(** The size rule on the lead of the specification's scenario: 800
    employees, and a company name with the keyword "inc". *)
Lemma size_rule_decides_witness :
  let row : gmap string value :=
    <["company" := VStr "Acme Inc"]> (<["employees" := VStr "800"]> ∅) in
  row !! "employees" = Some (VStr "800") ∧
  int (strip_commas_and_trailing_plus "800") = Ok 800%Z ∧
  detect_company_dna row = "Enterprise".
Proof.
  intros row.
  assert (row !! "employees" = Some (VStr "800")) as Hrow by reflexivity.
  assert (int (strip_commas_and_trailing_plus "800") = Ok 800%Z) as Hint by reflexivity.
  split; [exact Hrow | split; [exact Hint |]].
  apply (size_rule_decides row "800" 800 Hrow Hint). lia.
Defined.

(** The sizes the specification lists, for every lead that carries them. *)
Lemma size_rule_examples (row : gmap string value) :
  (row !! "employees" = Some (VStr "45") → detect_company_dna row = "High-Growth Startup") ∧
  (row !! "employees" = Some (VStr "120") → detect_company_dna row = "Mid-Market") ∧
  (row !! "employees" = Some (VStr "500") → detect_company_dna row = "Enterprise") ∧
  (row !! "employees" = Some (VStr "800") → detect_company_dna row = "Enterprise") ∧
  (row !! "employees" = Some (VStr "1,200+") → detect_company_dna row = "Enterprise").
Proof.
  repeat split; intros H;
    match type of H with
    | _ = Some (VStr ?s) =>
        match eval vm_compute in (int (strip_commas_and_trailing_plus s)) with
        | Ok ?n =>
            by rewrite (detect_company_dna_stripped row s n H)
        end
    end.
Qed.

(** C9: the program deletes every comma and every plus sign of the
    [employees] string, wherever they stand, before reading it as an
    integer; so "+500" (and "5+00") falls under the size rule and is
    "Enterprise". *)
Theorem plus_removed_anywhere (row : gmap string value) (s : string) (n : Z) :
  row !! "employees" = Some (VStr s) →
  int (without_commas_and_pluses s) = Ok n →
  detect_company_dna row = size_based_detection n ∧
  detect_company_dna (<["employees" := VStr "+500"]> row) = "Enterprise" ∧
  detect_company_dna (<["employees" := VStr "5+00"]> row) = "Enterprise".
Proof.
  intros Hrow Hint.
  assert (∀ (r : gmap string value) t m,
    r !! "employees" = Some (VStr t) →
    int (without_commas_and_pluses t) = Ok m →
    detect_company_dna r = size_based_detection m) as Hgen.
  { intros r t m Hr Hm. rewrite without_commas_and_pluses_remove in Hm.
    apply detect_company_dna_sized; unfold get; rewrite Hr; simpl; [|done].
    destruct t; [by vm_compute in Hm | done]. }
  split; [by eapply Hgen |].
  split.
  - by rewrite (Hgen _ "+500" 500%Z); [| apply lookup_insert_eq |].
  - by rewrite (Hgen _ "5+00" 500%Z); [| apply lookup_insert_eq |].
Qed.

Lemma plus_removed_anywhere_witness :
  let row : gmap string value := <["employees" := VStr "1,0+00"]> ∅ in
  row !! "employees" = Some (VStr "1,0+00") ∧
  int (without_commas_and_pluses "1,0+00") = Ok 1000%Z ∧
  detect_company_dna row = "Enterprise".
Proof.
  intros row.
  assert (row !! "employees" = Some (VStr "1,0+00")) as Hrow by reflexivity.
  assert (int (without_commas_and_pluses "1,0+00") = Ok 1000%Z) as Hint by reflexivity.
  split; [exact Hrow | split; [exact Hint |]].
  apply (plus_removed_anywhere row "1,0+00" 1000 Hrow Hint).
Defined.

(** C10: the size rule runs only on a true [employees] value.  With the
    empty string or the number 0 (any false value) the lead goes to the
    keyword rules and their "Mid-Market" default, and is never
    "High-Growth Startup"; with the string "0" in the same place it is. *)
Theorem false_employees_skip_size_rule (row : gmap string value) (v : value) :
  row !! "employees" = Some v →
  truthy v = false →
  detect_company_dna row =
    keyword_based_detection (lower (str (get row "company" (VStr "")))) ∧
  detect_company_dna row ≠ "High-Growth Startup" ∧
  detect_company_dna (<["employees" := VStr "0"]> row) = "High-Growth Startup".
Proof.
  intros Hrow Hv.
  assert (detect_company_dna row =
    keyword_based_detection (lower (str (get row "company" (VStr ""))))) as E.
  { apply detect_company_dna_unusable. unfold usable_employees, get.
    rewrite Hrow. simpl. by rewrite Hv. }
  split; [done |]. split.
  - rewrite E. apply keyword_based_detection_not_startup.
  - by rewrite (detect_company_dna_sized _ 0%Z);
      unfold get; rewrite ?lookup_insert_eq.
Qed.

Lemma false_employees_skip_size_rule_witness :
  let row : gmap string value :=
    <["company" := VStr "Tiny Labs"]> (<["employees" := VInt 0]> ∅) in
  row !! "employees" = Some (VInt 0) ∧
  truthy (VInt 0) = false ∧
  detect_company_dna row = "Mid-Market" ∧
  detect_company_dna (<["employees" := VStr "0"]> row) = "High-Growth Startup".
Proof.
  intros row.
  assert (row !! "employees" = Some (VInt 0)) as Hrow by reflexivity.
  assert (truthy (VInt 0) = false) as Hv by reflexivity.
  destruct (false_employees_skip_size_rule row (VInt 0) Hrow Hv) as (E & _ & E0).
  split; [exact Hrow | split; [exact Hv | split; [| exact E0]]].
  rewrite E. reflexivity.
Defined.

Lemma keyword_based_detection_cases s :
  (mentions s agency_keywords →
     keyword_based_detection (lower s) = "Agency/Consultancy") ∧
  (¬ mentions s agency_keywords → mentions s enterprise_keywords →
     keyword_based_detection (lower s) = "Enterprise") ∧
  (¬ mentions s agency_keywords → ¬ mentions s enterprise_keywords →
     keyword_based_detection (lower s) = "Mid-Market").
Proof.
  unfold keyword_based_detection.
  fold agency_keywords enterprise_keywords.
  pose proof (existsb_contains_mentions s agency_keywords) as Ha.
  pose proof (existsb_contains_mentions s enterprise_keywords) as He.
  destruct (existsb _ agency_keywords); destruct (existsb _ enterprise_keywords);
    intuition congruence.
Qed.

(** C3: for a lead with no usable [employees] value the archetype comes
    from the company name alone, matched without regard to case against
    the agency keywords first ("Agency/Consultancy"), then the enterprise
    keywords ("Enterprise"), and is "Mid-Market" when neither list
    matches. *)
Theorem keyword_rules_in_order (row : gmap string value) :
  usable_employees (get row "employees" (get row "company_size" (VStr ""))) = false →
  let company := str (get row "company" (VStr "")) in
  (mentions company agency_keywords →
     detect_company_dna row = "Agency/Consultancy") ∧
  (¬ mentions company agency_keywords → mentions company enterprise_keywords →
     detect_company_dna row = "Enterprise") ∧
  (¬ mentions company agency_keywords → ¬ mentions company enterprise_keywords →
     detect_company_dna row = "Mid-Market").
Proof.
  intros Hemp company. rewrite (detect_company_dna_unusable row Hemp).
  apply keyword_based_detection_cases.
Qed.

(** The lead of the specification: no [employees], company "Acme
    Partners". *)
Lemma keyword_rules_in_order_witness :
  let row : gmap string value := <["company" := VStr "Acme Partners"]> ∅ in
  usable_employees (get row "employees" (get row "company_size" (VStr ""))) = false ∧
  detect_company_dna row = "Agency/Consultancy".
Proof.
  intros row.
  assert (usable_employees
            (get row "employees" (get row "company_size" (VStr ""))) = false)
    as Hemp by reflexivity.
  split; [exact Hemp |].
  apply (keyword_rules_in_order row Hemp).
  exists "partners", "Acme ", "Partners", "".
  split; [| split; reflexivity]. right; right; left; reflexivity.
Defined.

(** The same lead as the Normalizer leaves it, with [employees] set to the
    empty string. *)
Lemma acme_partners_is_agency (row : gmap string value) :
  row !! "employees" = Some (VStr "") →
  row !! "company" = Some (VStr "Acme Partners") →
  detect_company_dna row = "Agency/Consultancy".
Proof.
  intros He Hc.
  rewrite detect_company_dna_unusable; unfold get; rewrite ?He, ?Hc; done.
Qed.

(** ** Priority detection *)

(** C4: the priority is a case-insensitive substring match of the title
    against the P1 keywords first, then the P2 keywords, then the default:
    a title with a P1 keyword is "P1 - Hot" even when it also has a P2
    keyword, and a title with no keyword of either list (such as "Account
    Executive") is "P3 - Nurture". *)
Theorem priority_tiers_in_order (row : gmap string value) :
  let title := str (get row "title" (VStr "")) in
  (mentions title p1_keywords → assign_priority row = "P1 - Hot") ∧
  (¬ mentions title p1_keywords → mentions title p2_keywords →
     assign_priority row = "P2 - Warm") ∧
  (¬ mentions title p1_keywords → ¬ mentions title p2_keywords →
     assign_priority row = "P3 - Nurture") ∧
  (row !! "title" = Some (VStr "VP, Director of Sales") →
     mentions title p1_keywords ∧ mentions title p2_keywords ∧
     assign_priority row = "P1 - Hot") ∧
  (row !! "title" = Some (VStr "Account Executive") →
     assign_priority row = "P3 - Nurture").
Proof.
  intros title. unfold assign_priority. fold title p1_keywords p2_keywords.
  pose proof (existsb_contains_mentions title p1_keywords) as H1.
  pose proof (existsb_contains_mentions title p2_keywords) as H2.
  split; [| split; [| split; [| split]]].
  - intros H. apply H1 in H. by rewrite H.
  - intros N1 M2. apply H2 in M2. rewrite M2.
    destruct (existsb _ p1_keywords); [by destruct N1; apply H1 | done].
  - intros N1 N2.
    destruct (existsb _ p1_keywords); [by destruct N1; apply H1 |].
    destruct (existsb _ p2_keywords); [by destruct N2; apply H2 | done].
  - intros Ht. subst title. unfold get in *. rewrite Ht in *. simpl in *.
    split; [by apply H1 | split; [by apply H2 | done]].
  - intros Ht. subst title. unfold get. by rewrite Ht.
Qed.

Lemma priority_tiers_in_order_witness :
  let row : gmap string value := <["title" := VStr "VP, Director of Sales"]> ∅ in
  row !! "title" = Some (VStr "VP, Director of Sales") ∧
  assign_priority row = "P1 - Hot".
Proof.
  intros row.
  assert (row !! "title" = Some (VStr "VP, Director of Sales")) as Ht by reflexivity.
  split; [exact Ht |].
  destruct (priority_tiers_in_order row) as (_ & _ & _ & Hvp & _).
  apply (Hvp Ht).
Defined.

(** ** Template selection *)

Section bundles.
Context {A : Type} (startup enterprise mid_market agency : A).

Let bundle : gmap string A :=
  <["High-Growth Startup" := startup]>
  (<["Enterprise" := enterprise]>
  (<["Mid-Market" := mid_market]>
  (<["Agency/Consultancy" := agency]> ∅))).

Lemma getitem_mid_market : getitem bundle "Mid-Market" = Ok mid_market.
Proof. reflexivity. Qed.

(** Any key but the three other archetypes ends on the "Mid-Market"
    entry: the key "Mid-Market" itself, a string the table does not have,
    and a value that is not a string. *)
Lemma get_by_value_mid_market company_dna :
  selects_other_bundle company_dna = false →
  get_by_value bundle company_dna mid_market = mid_market.
Proof.
  destruct company_dna as [s| | |]; try done. simpl.
  intros [[H1 H2]%orb_false_iff H3]%orb_false_iff.
  apply String.eqb_neq in H1, H2, H3.
  unfold get, bundle. rewrite !lookup_insert.
  repeat case_decide; subst; try done.
Qed.

Lemma get_by_value_known company_dna :
  get_by_value bundle company_dna mid_market ∈ [startup; enterprise; mid_market; agency].
Proof.
  destruct company_dna as [s| | |]; simpl; try (repeat constructor; fail).
  unfold get, bundle. rewrite !lookup_insert.
  repeat case_decide; simpl; repeat constructor.
Qed.

End bundles.

(** ** The generators on a lead *)

Section generators.
Context (row : gmap string value) (Hname : row !! "name" = None).

Lemma first_name_of_lead :
  first_name_of row = Ok (get row "first_name" (VStr "there")).
Proof using Hname. unfold first_name_of, get. by rewrite Hname. Qed.

Lemma generate_email_subject_lead company_dna value_prop :
  generate_email_subject row company_dna value_prop =
    let first_name := str (get row "first_name" (VStr "there")) in
    let company := str (get row "company" (VStr "your team")) in
    item0 (get_by_value (subjects first_name company value_prop) company_dna
             [first_name +:+ " - " +:+ company +:+ "'s next growth lever";
              "Helping " +:+ company +:+ " scale smarter";
              first_name +:+ ", quick question about " +:+ company]).
Proof using Hname.
  unfold generate_email_subject. by rewrite first_name_of_lead.
Qed.

Lemma generate_linkedin_message_lead company_dna value_prop :
  generate_linkedin_message row company_dna value_prop =
    let first_name := str (get row "first_name" (VStr "there")) in
    let company := str (get row "company" (VStr "your company")) in
    Ok (truncate_message
          (get_by_value (messages first_name company value_prop) company_dna
             ("Hi " +:+ first_name +:+ " " +:+ em_dash +:+ " " +:+ company
              +:+ " looks like a great fit for some ideas I have on " +:+ value_prop
              +:+ ". Would love to connect."))).
Proof using Hname.
  unfold generate_linkedin_message. by rewrite first_name_of_lead.
Qed.

End generators.

Section generators_total.
Context (row : gmap string value) (Hname : row !! "name" = None).

Lemma generate_email_subject_returns company_dna value_prop :
  ∃ subject, generate_email_subject row company_dna value_prop = Ok subject.
Proof using Hname.
  rewrite generate_email_subject_lead by done. cbv zeta.
  match goal with |- ∃ _, item0 (get_by_value ?b _ ?d) = _ =>
    pose proof (get_by_value_known _ _ _ _ company_dna : get_by_value b company_dna d ∈ _) as Hin
  end.
  repeat (apply elem_of_cons in Hin as [-> | Hin]; [by eexists |]).
  by apply elem_of_nil in Hin.
Qed.

Lemma generate_email_body_returns company_dna value_prop sender_name :
  ∃ body, generate_email_body row company_dna value_prop sender_name = Ok body.
Proof using Hname.
  unfold generate_email_body. rewrite first_name_of_lead by done.
  change (getitem COMPANY_DNA_PROFILES "Mid-Market") with
    (Ok {| pain_points := ["growing pains"; "process optimization"; "competitive pressure"];
           values := ["efficiency"; "growth"; "partnership"];
           tone := "balanced and consultative" |}).
  cbn [mbind result_bind].
  match goal with |- context [get_by_value COMPANY_DNA_PROFILES company_dna ?d] =>
    pose proof (get_by_value_known _ _ _ _ company_dna
                  : get_by_value COMPANY_DNA_PROFILES company_dna d ∈ _) as Hin
  end.
  repeat (apply elem_of_cons in Hin as [-> | Hin]; [by eexists |]).
  by apply elem_of_nil in Hin.
Qed.

(** With a key that selects no other bundle, the body is the
    "Mid-Market" template around the first "Mid-Market" pain point. *)
Lemma generate_email_body_mid_market company_dna value_prop sender_name :
  selects_other_bundle company_dna = false →
  generate_email_body row company_dna value_prop sender_name =
    getitem (templates (str (get row "first_name" (VStr "there")))
               (str (get row "company" (VStr "your company")))
               "growing pains" value_prop sender_name) "Mid-Market".
Proof using Hname.
  intros Hdna.
  unfold generate_email_body. rewrite first_name_of_lead by done.
  change (getitem COMPANY_DNA_PROFILES "Mid-Market") with
    (Ok {| pain_points := ["growing pains"; "process optimization"; "competitive pressure"];
           values := ["efficiency"; "growth"; "partnership"];
           tone := "balanced and consultative" |}).
  cbn [mbind result_bind].
  unfold COMPANY_DNA_PROFILES. rewrite get_by_value_mid_market by done.
  cbn [pain_points item0 mbind result_bind].
  unfold templates. rewrite getitem_mid_market. cbn [mbind result_bind].
  by rewrite get_by_value_mid_market.
Qed.

End generators_total.

(** ** The connection message *)

(** A slice [s[:n]] is a prefix of [s], of [n] characters when [s] has that
    many; and the prefix of [n] characters of a string is its slice. *)
Lemma take_prefix n s : ∃ dropped, s = take n s +:+ dropped.
Proof.
  revert s; induction n as [|n IH]; intros [|c s]; try (by eexists).
  destruct (IH s) as [dropped H]. exists dropped.
  cbn [take]. by rewrite app_cons, <- H.
Qed.

Lemma length_take_all n s :
  (n <= String.length s)%nat → String.length (take n s) = n.
Proof.
  revert s; induction n as [|n IH]; intros [|c s]; simpl; try lia.
  intros H. rewrite IH; lia.
Qed.

Lemma take_app_all n a b : String.length a = n → take n (a +:+ b) = a.
Proof.
  revert a; induction n as [|n IH]; intros [|c a]; try done.
  intros [= H]. rewrite app_cons. cbn [take]. by rewrite IH.
Qed.

Lemma truncate_message_length msg :
  (String.length (truncate_message msg) <= 300)%nat.
Proof.
  unfold truncate_message.
  destruct (Nat.ltb_spec 300 (String.length msg)); cbv iota; [| lia].
  rewrite length_app. pose proof (length_take 295 msg).
  change (String.length "...") with 3%nat. lia.
Qed.

Lemma truncate_message_cases msg :
  ((300 < String.length msg)%nat → truncate_message msg = take 295 msg +:+ "...") ∧
  ((String.length msg <= 300)%nat → truncate_message msg = msg) ∧
  (String.length (truncate_message msg) <= 300)%nat.
Proof.
  split; [| split]; [| | apply truncate_message_length];
    unfold truncate_message;
    destruct (Nat.ltb_spec 300 (String.length msg)); done || lia.
Qed.

(** C5: for every archetype key, first name, company and value
    proposition, the connection message of a lead is at most 300
    characters long: a rendered template longer than 300 characters is cut
    to its first 295 characters (the rendered text is those 295
    characters and then the rest) followed by "...", 298 characters in
    all, and a shorter one is returned as rendered. *)
Theorem linkedin_message_within_limit
    (row : gmap string value) (company_dna : value) (value_prop : string) :
  row !! "name" = None →
  let first_name := str (get row "first_name" (VStr "there")) in
  let company := str (get row "company" (VStr "your company")) in
  ∃ fallback rendered msg,
    messages first_name company value_prop !! "Mid-Market" = Some fallback ∧
    rendered = get_by_value (messages first_name company value_prop) company_dna fallback ∧
    generate_linkedin_message row company_dna value_prop = Ok msg ∧
    ((300 < String.length rendered)%nat →
       ∃ kept dropped,
         rendered = kept +:+ dropped ∧ String.length kept = 295%nat ∧
         msg = kept +:+ "..." ∧ msg = take 295 rendered +:+ "..." ∧
         String.length msg = 298%nat) ∧
    ((String.length rendered <= 300)%nat → msg = rendered) ∧
    (String.length msg <= 300)%nat.
Proof.
  intros Hname first_name company.
  rewrite generate_linkedin_message_lead by done. cbv zeta.
  match goal with
  | |- context [truncate_message (get_by_value ?table _ ?mid_market)] =>
      exists mid_market, (get_by_value table company_dna mid_market),
        (truncate_message (get_by_value table company_dna mid_market));
      set (rendered := get_by_value table company_dna mid_market)
  end.
  split; [reflexivity |]. split; [reflexivity |]. split; [reflexivity |].
  destruct (truncate_message_cases rendered) as (Hlong & Hshort & Hlen).
  split; [| split; [exact Hshort | exact Hlen]].
  intros H. destruct (take_prefix 295 rendered) as [dropped Hcut].
  exists (take 295 rendered), dropped.
  assert (String.length (take 295 rendered) = 295%nat) as Hkept
    by (apply length_take_all; lia).
  split; [exact Hcut |]. split; [exact Hkept |].
  rewrite (Hlong H). split; [done |]. split; [done |].
  rewrite length_app, Hkept. reflexivity.
Qed.

(** A lead with a value proposition of 318 characters: the message is the
    first 295 characters of the "Enterprise" text, then "...". *)
Lemma linkedin_message_within_limit_witness :
  let row : gmap string value :=
    <["first_name" := VStr "Jane"]> (<["company" := VStr "Acme Inc"]> ∅) in
  let phrase := "revenue operations, pipeline hygiene and forecasting " in
  let msg :=
    "Hi Jane " +:+ em_dash +:+ " I help enterprise revenue teams with "
    +:+ phrase +:+ phrase +:+ phrase +:+ phrase
    +:+ "revenue operations, pipeline hygiene" +:+ "..." in
  row !! "name" = None ∧
  generate_linkedin_message row (VStr "Enterprise") long_value_prop = Ok msg ∧
  String.length msg = 298%nat.
Proof.
  intros row phrase msg.
  assert (row !! "name" = None) as Hname by reflexivity.
  split; [exact Hname |].
  destruct (linkedin_message_within_limit row (VStr "Enterprise") long_value_prop Hname)
    as (fallback & rendered & got & _ & Hrendered & Hgot & Hlong & _ & _).
  assert (300 < String.length rendered)%nat as Hlen
    by (rewrite Hrendered; vm_compute; lia).
  destruct (Hlong Hlen) as (kept & dropped & Hcut & Hkept & Hmsg & _ & Hsize).
  assert (kept = take 295 rendered) as Ekept
    by (rewrite Hcut at 1; symmetry; by apply take_app_all).
  assert (got = msg) as <-.
  { rewrite Hmsg, Ekept, Hrendered. vm_compute. reflexivity. }
  split; [exact Hgot | exact Hsize].
Defined.

(** ** The Normalizer *)

Section normalizer.
Context (row_dict : gmap string value).

Lemma name_fallback_usable :
  name_usable row_dict = true →
  ∃ first,
    name_fallback row_dict = Ok (VStr first) ∧
    first ≠ EmptyString ∧
    (get_truthy row_dict "name" = false → first = "there") ∧
    (∀ s, row_dict !! "name" = Some (VStr s) → s ≠ EmptyString →
          head (split s) = Some first).
Proof.
  unfold name_usable, name_fallback, get_truthy, get.
  destruct (row_dict !! "name") as [[s|n|b|]|] eqn:E; simpl.
  - destruct s as [|c s].
    { intros _. exists "there". repeat split; try done. by intros ? [= <-]. }
    destruct (split (String c s)) as [|x l] eqn:Es; [done |].
    intros _. exists x. repeat split; try done.
    + apply (split_from_nonempty (String c s) EmptyString).
      fold (split (String c s)). rewrite Es. by left.
    + intros s' [= <-] _. by rewrite Es.
  - intros ->%negb_true_iff. exists "there". by repeat split.
  - intros ->%negb_true_iff. exists "there". by repeat split.
  - done.
  - intros _. exists "there". by repeat split.
Qed.

(** Otherwise the Normalizer raises: [IndexError] on a blank string,
    [AttributeError] on a true value that is not a string. *)
Lemma name_fallback_unusable :
  name_usable row_dict = false →
  name_fallback row_dict = Raise IndexError ∨
  name_fallback row_dict = Raise AttributeError.
Proof.
  unfold name_usable, name_fallback, get_truthy, get.
  destruct (row_dict !! "name") as [[s|n|b|]|] eqn:E;
    cbn [truthy default from_option id value_split]; try done.
  - destruct s as [|c s]; [done |].
    destruct (split (String c s)) as [|x l] eqn:Es; [| done].
    intros _. by left.
  - intros ->%negb_false_iff. by right.
  - intros ->%negb_false_iff. by right.
  - intros _. by right.
Qed.

Context (from_name : value).

Let lead_data := lead_data_with row_dict from_name.

Lemma lead_data_fields :
  lead_data !! "first_name" =
    Some (first_present row_dict ["first_name"; "firstname"] from_name) ∧
  lead_data !! "last_name" =
    Some (first_present row_dict ["last_name"; "lastname"] (VStr "")) ∧
  lead_data !! "company" =
    Some (first_present row_dict ["company"; "company_name"; "organization"]
            (VStr "Unknown")) ∧
  lead_data !! "title" =
    Some (first_present row_dict ["title"; "job_title"; "position"] (VStr "")) ∧
  lead_data !! "email" =
    Some (first_present row_dict ["email"; "email_address"] (VStr "")) ∧
  lead_data !! "linkedin" =
    Some (first_present row_dict ["linkedin"; "linkedin_url"; "profile_url"]
            (VStr "")) ∧
  lead_data !! "employees" =
    Some (first_present row_dict ["employees"; "company_size"; "size"] (VStr "")).
Proof. repeat split. Qed.

Lemma lead_data_keys :
  dom lead_data =
    list_to_set ["first_name"; "last_name"; "company"; "title"; "email";
                 "linkedin"; "employees"].
Proof.
  unfold lead_data, lead_data_with. rewrite !dom_insert_L, dom_empty_L.
  simpl. set_solver.
Qed.

Lemma lead_data_no_name : lead_data !! "name" = None.
Proof. reflexivity. Qed.

End normalizer.

(** C1 (as amended): on a row whose [name] entry, after key normalisation,
    is absent, false, or a string with a non-blank character, the
    Normalizer returns a lead with exactly the seven canonical fields; each
    field is the value of the first key of its synonym chain that the row
    has, unchanged, and only when the row has none of them the fallback:
    for [first_name] the first word of a true [name], else "there" (a
    non-empty string either way), for [company] "Unknown", for the others
    the empty string. *)
Theorem normalizer_first_present (row : raw_record) :
  name_usable (row_dict_of row) = true →
  ∃ first lead_data,
    normalize row = Ok lead_data ∧
    first ≠ EmptyString ∧
    (get_truthy (row_dict_of row) "name" = false → first = "there") ∧
    (∀ s, row_dict_of row !! "name" = Some (VStr s) → s ≠ EmptyString →
          head (split s) = Some first) ∧
    dom lead_data =
      list_to_set ["first_name"; "last_name"; "company"; "title"; "email";
                   "linkedin"; "employees"] ∧
    lead_data !! "first_name" =
      Some (first_present (row_dict_of row) ["first_name"; "firstname"] (VStr first)) ∧
    lead_data !! "last_name" =
      Some (first_present (row_dict_of row) ["last_name"; "lastname"] (VStr "")) ∧
    lead_data !! "company" =
      Some (first_present (row_dict_of row) ["company"; "company_name"; "organization"]
              (VStr "Unknown")) ∧
    lead_data !! "title" =
      Some (first_present (row_dict_of row) ["title"; "job_title"; "position"]
              (VStr "")) ∧
    lead_data !! "email" =
      Some (first_present (row_dict_of row) ["email"; "email_address"] (VStr "")) ∧
    lead_data !! "linkedin" =
      Some (first_present (row_dict_of row) ["linkedin"; "linkedin_url"; "profile_url"]
              (VStr "")) ∧
    lead_data !! "employees" =
      Some (first_present (row_dict_of row) ["employees"; "company_size"; "size"]
              (VStr "")).
Proof.
  intros Husable.
  destruct (name_fallback_usable _ Husable) as (first & Hfb & Hne & Hthere & Hhead).
  exists first, (lead_data_with (row_dict_of row) (VStr first)).
  split; [by unfold normalize, lead_data_of; rewrite Hfb |].
  split; [done |]. split; [done |]. split; [done |].
  split; [apply lead_data_keys | apply lead_data_fields].
Qed.

(** A row with none of the synonym columns: every field is its fallback. *)
Lemma normalizer_first_present_witness :
  let row : raw_record := [("Phone", VStr "555 0100")] in
  name_usable (row_dict_of row) = true ∧
  ∃ lead_data,
    normalize row = Ok lead_data ∧
    lead_data !! "first_name" = Some (VStr "there") ∧
    lead_data !! "company" = Some (VStr "Unknown") ∧
    lead_data !! "employees" = Some (VStr "").
Proof.
  intros row.
  assert (name_usable (row_dict_of row) = true) as Husable by reflexivity.
  split; [exact Husable |].
  destruct (normalizer_first_present row Husable)
    as (first & lead_data & Hok & _ & Hthere & _ & _ & Hfirst & _ & Hcompany & _ & _ & _ & Hemp).
  exists lead_data. split; [exact Hok |].
  rewrite (Hthere eq_refl) in Hfirst.
  split; [exact Hfirst | split; [exact Hcompany | exact Hemp]].
Defined.

(** C1 as stated fails: a row with empty [First Name] and [Company] cells
    normalises to a lead whose [first_name] and [company] are NaN, not
    "there" and "Unknown". *)
Lemma normalizer_keeps_empty_cells :
  ∃ lead_data,
    normalize empty_cells_row = Ok lead_data ∧
    lead_data !! "first_name" = Some VNaN ∧
    lead_data !! "company" = Some VNaN.
Proof. eexists. repeat split. Qed.

(** The same with an empty string under the key: [first_name] is empty. *)
Lemma normalizer_keeps_empty_string :
  ∃ lead_data,
    normalize [("first_name", VStr ""); ("name", VStr "Jane Doe")] = Ok lead_data ∧
    lead_data !! "first_name" = Some (VStr "").
Proof. eexists. repeat split. Qed.

(** The NaN cells reach the scripts. *)
Lemma empty_cells_reach_the_scripts :
  ∃ r,
    process_leads [empty_cells_row] "X" "Y" false = Ok [r] ∧
    First_Name r = VNaN ∧
    Email_Subject r = "nan - nan's next growth lever".
Proof. eexists. vm_compute. repeat split. Qed.

(** The scenario of the specification: size beats the "inc" keyword, the
    title is tier one, and the scripts are the "Enterprise" ones around
    "Jane". *)
Lemma jane_scenario :
  ∃ r,
    process_leads [jane] "X" "Y" true = Ok [r] ∧
    First_Name r = VStr "Jane" ∧
    Company_DNA r = VStr "Enterprise" ∧
    Priority r = "P1 - Hot" ∧
    Email_Subject r = "Strategic alignment: Acme Inc revenue operations" ∧
    String.prefix "Hi Jane," (Email_Body r) = true.
Proof. eexists. vm_compute. repeat split. Qed.

(** The Normalizer raises on a [name] cell of blanks, and on an empty
    [name] cell (NaN), whatever the other columns hold. *)
Lemma normalizer_raises_on_blank_name :
  normalize blank_name_row = Raise IndexError.
Proof. reflexivity. Qed.

Lemma normalizer_raises_on_missing_name :
  normalize missing_name_row = Raise AttributeError.
Proof. reflexivity. Qed.

Lemma normalizer_raises_despite_first_name :
  normalize [("first_name", VStr "Jane"); ("name", VNaN)] = Raise AttributeError.
Proof. reflexivity. Qed.

(** ** One row through the pipeline *)

Section one_row.
Context (row : raw_record) (value_prop sender_name : string) (auto_detect_dna : bool).
Context (from_name : value).
Context (Hname : name_fallback (row_dict_of row) = Ok from_name).

Let lead_data := lead_data_with (row_dict_of row) from_name.

Let company_dna : value :=
  if auto_detect_dna then VStr (detect_company_dna lead_data)
  else get (row_dict_of row) "company_dna" (VStr "Mid-Market").

(** Once the Normalizer has returned, nothing raises: the row gets its
    result, built from the lead, the two tags and the three scripts. *)
Lemma process_row_returns :
  ∃ subject body message,
    generate_email_subject lead_data company_dna value_prop = Ok subject ∧
    generate_email_body lead_data company_dna value_prop sender_name = Ok body ∧
    generate_linkedin_message lead_data company_dna value_prop = Ok message ∧
    process_row row value_prop sender_name auto_detect_dna =
      Ok {| First_Name := get lead_data "first_name" (VStr "there");
            Last_Name := get lead_data "last_name" (VStr "");
            Company := get lead_data "company" (VStr "your company");
            Title := get lead_data "title" (VStr "");
            Email := get lead_data "email" (VStr "");
            LinkedIn := get lead_data "linkedin" (VStr "");
            Priority := assign_priority lead_data;
            Company_DNA := company_dna;
            Email_Subject := subject;
            Email_Body := body;
            LinkedIn_Message := message |}.
Proof using Hname.
  destruct (generate_email_subject_returns lead_data (lead_data_no_name _ _)
              company_dna value_prop) as [subject Hs].
  destruct (generate_email_body_returns lead_data (lead_data_no_name _ _)
              company_dna value_prop sender_name) as [body Hb].
  pose proof (generate_linkedin_message_lead lead_data (lead_data_no_name _ _)
                company_dna value_prop) as Hm.
  cbv zeta in Hm.
  eexists subject, body, _.
  split; [done |]. split; [done |]. split; [exact Hm |].
  unfold process_row, lead_data_of. rewrite Hname. cbn [mbind result_bind].
  fold lead_data. fold company_dna.
  change (field lead_data "first_name") with
    (Ok (get lead_data "first_name" (VStr "there")) : result value).
  change (field lead_data "last_name") with
    (Ok (get lead_data "last_name" (VStr "")) : result value).
  change (field lead_data "company") with
    (Ok (get lead_data "company" (VStr "your company")) : result value).
  change (field lead_data "title") with
    (Ok (get lead_data "title" (VStr "")) : result value).
  change (field lead_data "email") with
    (Ok (get lead_data "email" (VStr "")) : result value).
  change (field lead_data "linkedin") with
    (Ok (get lead_data "linkedin" (VStr "")) : result value).
  cbn [mbind result_bind]. rewrite Hs, Hb, Hm. reflexivity.
Qed.

End one_row.

Lemma process_row_raises row value_prop sender_name auto_detect_dna :
  name_usable (row_dict_of row) = false →
  process_row row value_prop sender_name auto_detect_dna = Raise IndexError ∨
  process_row row value_prop sender_name auto_detect_dna = Raise AttributeError.
Proof.
  intros H. unfold process_row, lead_data_of.
  by destruct (name_fallback_unusable _ H) as [-> | ->]; [left | right].
Qed.

(** C6: with auto-detect off, a row whose [company_dna] entry is absent
    (the key then defaults to "Mid-Market") or names none of the known
    archetypes gets exactly the "Mid-Market" outputs: the first
    "Mid-Market" subject line, the "Mid-Market" body written around the
    first pain point of the "Mid-Market" profile, and the "Mid-Market"
    connection message. *)
Theorem unknown_archetype_gets_mid_market
    (row : raw_record) (value_prop sender_name : string) :
  name_usable (row_dict_of row) = true →
  selects_other_bundle (get (row_dict_of row) "company_dna" (VStr "Mid-Market")) = false →
  ∃ r subject_lines profile pain message,
    process_row row value_prop sender_name false = Ok r ∧
    (row_dict_of row !! "company_dna" = None → Company_DNA r = VStr "Mid-Market") ∧
    (∀ v, row_dict_of row !! "company_dna" = Some v → Company_DNA r = v) ∧
    subjects (str (First_Name r)) (str (Company r)) value_prop !! "Mid-Market"
      = Some subject_lines ∧
    head subject_lines = Some (Email_Subject r) ∧
    COMPANY_DNA_PROFILES !! "Mid-Market" = Some profile ∧
    head (pain_points profile) = Some pain ∧
    templates (str (First_Name r)) (str (Company r)) pain value_prop sender_name
      !! "Mid-Market" = Some (Email_Body r) ∧
    messages (str (First_Name r)) (str (Company r)) value_prop !! "Mid-Market"
      = Some message ∧
    LinkedIn_Message r = truncate_message message.
Proof.
  intros Husable Hdna.
  destruct (name_fallback_usable _ Husable) as (first & Hfb & _).
  destruct (process_row_returns row value_prop sender_name false (VStr first) Hfb)
    as (subject & body & message & Hs & Hb & Hm & Hrow).
  cbv zeta in Hs, Hb, Hm, Hrow.
  pose proof (lead_data_no_name (row_dict_of row) (VStr first)) as Hnoname.
  rewrite generate_email_subject_lead in Hs by done. cbv zeta in Hs.
  unfold subjects in Hs. rewrite get_by_value_mid_market in Hs by done.
  rewrite generate_email_body_mid_market in Hb by done.
  rewrite generate_linkedin_message_lead in Hm by done. cbv zeta in Hm.
  unfold messages in Hm. rewrite get_by_value_mid_market in Hm by done.
  injection Hs as <-. injection Hm as <-.
  eexists _, _, _, _, _. split; [exact Hrow |]. cbn [Company_DNA].
  split; [by unfold get; intros -> |].
  split; [by unfold get; intros v -> |].
  split; [reflexivity |]. split; [reflexivity |].
  split; [reflexivity |]. split; [reflexivity |].
  split; [| split; reflexivity].
  cbn [First_Name Company Email_Body].
  unfold getitem in Hb.
  by destruct (templates _ _ _ _ _ !! "Mid-Market") as [t|] eqn:Et; [injection Hb as <- |].
Qed.

Lemma unknown_archetype_gets_mid_market_witness :
  let row : raw_record :=
    [("Name", VStr "Jane Doe"); ("Company", VStr "Acme");
     ("Company DNA", VStr "Nonprofit")] in
  name_usable (row_dict_of row) = true ∧
  selects_other_bundle (get (row_dict_of row) "company_dna" (VStr "Mid-Market")) = false ∧
  ∃ r subject_lines,
    process_row row "X" "Y" false = Ok r ∧
    Company_DNA r = VStr "Nonprofit" ∧
    subjects (str (First_Name r)) (str (Company r)) "X" !! "Mid-Market"
      = Some subject_lines ∧
    head subject_lines = Some (Email_Subject r).
Proof.
  intros row.
  assert (name_usable (row_dict_of row) = true) as Husable by reflexivity.
  assert (selects_other_bundle
            (get (row_dict_of row) "company_dna" (VStr "Mid-Market")) = false)
    as Hdna by reflexivity.
  split; [exact Husable | split; [exact Hdna |]].
  destruct (unknown_archetype_gets_mid_market row "X" "Y" Husable Hdna)
    as (r & subject_lines & _ & _ & _ & Hrow & _ & Hkey & Hlines & Hhead & _).
  exists r, subject_lines.
  split; [exact Hrow |]. split; [apply Hkey; reflexivity |].
  split; [exact Hlines | exact Hhead].
Defined.

(** ** The batch *)

Section batch.
Context (value_prop sender_name : string) (auto_detect_dna : bool).

Let row_result (row : raw_record) (r : result_row) : Prop :=
  process_row row value_prop sender_name auto_detect_dna = Ok r.

(** The loop returns exactly when every row returns, and then it has
    appended the results of the rows, in order, to what it started
    with. *)
Lemma process_rows_appends rows results out :
  process_rows rows value_prop sender_name auto_detect_dna results = Ok out ↔
  ∃ new, out = (results ++ new)%list ∧ Forall2 row_result rows new.
Proof.
  revert results; induction rows as [|row rest IH]; intros results;
    cbn [process_rows].
  - split.
    + intros [= <-]. exists []. by rewrite app_nil_r.
    + intros (new & -> & ->%Forall2_nil_inv_l). by rewrite app_nil_r.
  - destruct (process_row row value_prop sender_name auto_detect_dna)
      as [r|e] eqn:E; cbn [mbind result_bind].
    + rewrite IH. split.
      * intros (new & -> & Hnew). exists (r :: new).
        split; [by rewrite <- app_assoc | by constructor].
      * intros (new & -> & (r' & new' & Hr & Hnew & ->)%Forall2_cons_inv_l).
        unfold row_result in Hr. rewrite E in Hr. injection Hr as <-.
        exists new'. by rewrite <- app_assoc.
    + split; [done |].
      intros (new & _ & (r' & new' & Hr & _)%Forall2_cons_inv_l).
      unfold row_result in Hr. congruence.
Qed.

Lemma process_leads_row_for_row df out :
  process_leads df value_prop sender_name auto_detect_dna = Ok out ↔
  Forall2 row_result df out.
Proof.
  unfold process_leads. rewrite process_rows_appends. split.
  - by intros (new & -> & H).
  - intros H. by exists out.
Qed.

(** A table without a blank or non-string [name] cell is processed to
    the end: as many result rows as rows, the i-th result being the
    result of the i-th row. *)
Lemma process_leads_returns df :
  Forall (λ row, name_usable (row_dict_of row) = true) df →
  ∃ out,
    process_leads df value_prop sender_name auto_detect_dna = Ok out ∧
    length out = length df ∧
    ∀ i row, df !! i = Some row → ∃ r, out !! i = Some r ∧ row_result row r.
Proof.
  intros Hdf.
  assert (∃ out, Forall2 row_result df out) as [out Hout].
  { induction Hdf as [|row rest Hrow _ [out IH]]; [by exists [] |].
    destruct (name_fallback_usable _ Hrow) as (first & Hfb & _).
    destruct (process_row_returns row value_prop sender_name auto_detect_dna
                (VStr first) Hfb) as (? & ? & ? & _ & _ & _ & Hr).
    eexists (_ :: out). constructor; [exact Hr | exact IH]. }
  exists out. split; [by apply process_leads_row_for_row |].
  split; [symmetry; by eapply Forall2_length |].
  intros i row Hi. by eapply Forall2_lookup_l.
Qed.

(** One such cell anywhere in the table and no table is returned. *)
Lemma process_leads_raises df out :
  Exists (λ row, name_usable (row_dict_of row) = false) df →
  process_leads df value_prop sender_name auto_detect_dna ≠ Ok out.
Proof.
  intros Hbad Hout. apply process_leads_row_for_row in Hout.
  apply Exists_exists in Hbad as (row & Hin & Hrow).
  apply list_elem_of_lookup in Hin as [i Hi].
  destruct (Forall2_lookup_l _ _ _ _ _ Hout Hi) as (r & _ & Hr).
  unfold row_result in Hr.
  destruct (process_row_raises row value_prop sender_name auto_detect_dna Hrow);
    congruence.
Qed.

End batch.

(** C8: the result of a row depends on the row and the three parameters
    only.  In any two runs that return, on tables that hold the same
    record (the same table or not, at the same place or not), the record
    gets the same result row. *)
Theorem pipeline_deterministic
    (df1 df2 : list raw_record) (row : raw_record)
    (value_prop sender_name : string) (auto_detect_dna : bool)
    (i j : nat) (out1 out2 : list result_row) :
  df1 !! i = Some row →
  df2 !! j = Some row →
  process_leads df1 value_prop sender_name auto_detect_dna = Ok out1 →
  process_leads df2 value_prop sender_name auto_detect_dna = Ok out2 →
  ∃ r,
    process_row row value_prop sender_name auto_detect_dna = Ok r ∧
    out1 !! i = Some r ∧ out2 !! j = Some r.
Proof.
  intros Hi Hj H1%process_leads_row_for_row H2%process_leads_row_for_row.
  destruct (Forall2_lookup_l _ _ _ _ _ H1 Hi) as (r1 & Hr1 & E1).
  destruct (Forall2_lookup_l _ _ _ _ _ H2 Hj) as (r2 & Hr2 & E2).
  exists r1. split; [exact E1 |]. split; [exact Hr1 |].
  rewrite Hr2. congruence.
Qed.

(** C7: [process_leads] on a table of N rows is to return N result rows, in
    order.  On this table of two rows, the second with an empty [Name]
    cell, the loop raises on the second row and no table is returned. *)
Theorem process_leads_raises_on_missing_name :
  process_leads missing_name_table "X" "Y" true = Raise AttributeError.
Proof. vm_compute. reflexivity. Qed.

Lemma process_leads_raises_on_blank_name :
  process_leads [jane; blank_name_row] "X" "Y" true = Raise IndexError.
Proof. vm_compute. reflexivity. Qed.

Lemma pipeline_deterministic_witness :
  ∃ out1 out2 r,
    [jane; empty_cells_row] !! 0%nat = Some jane ∧
    [empty_cells_row; jane] !! 1%nat = Some jane ∧
    process_leads [jane; empty_cells_row] "X" "Y" true = Ok out1 ∧
    process_leads [empty_cells_row; jane] "X" "Y" true = Ok out2 ∧
    out1 !! 0%nat = Some r ∧ out2 !! 1%nat = Some r.
Proof.
  assert (Forall (λ row, name_usable (row_dict_of row) = true)
            [jane; empty_cells_row]) as Hdf1 by (repeat constructor).
  assert (Forall (λ row, name_usable (row_dict_of row) = true)
            [empty_cells_row; jane]) as Hdf2 by (repeat constructor).
  destruct (process_leads_returns "X" "Y" true _ Hdf1) as (out1 & H1 & _).
  destruct (process_leads_returns "X" "Y" true _ Hdf2) as (out2 & H2 & _).
  destruct (pipeline_deterministic [jane; empty_cells_row] [empty_cells_row; jane]
              jane "X" "Y" true 0 1 out1 out2 eq_refl eq_refl H1 H2)
    as (r & _ & Hr1 & Hr2).
  exists out1, out2, r.
  split; [reflexivity |]. split; [reflexivity |].
  split; [exact H1 |]. split; [exact H2 |]. split; [exact Hr1 | exact Hr2].
Defined.

(** ** The two tags are always known ones *)

Lemma detect_company_dna_cases row :
  detect_company_dna row = "High-Growth Startup" ∨
  detect_company_dna row = "Mid-Market" ∨
  detect_company_dna row = "Enterprise" ∨
  detect_company_dna row = "Agency/Consultancy".
Proof.
  unfold detect_company_dna, size_based_detection, keyword_based_detection.
  repeat match goal with
         | |- context [if ?b then _ else _] => destruct b
         | |- context [match ?x with Ok _ => _ | Raise _ => _ end] => destruct x
         end; auto.
Qed.

Lemma assign_priority_cases row :
  assign_priority row = "P1 - Hot" ∨
  assign_priority row = "P2 - Warm" ∨
  assign_priority row = "P3 - Nurture".
Proof.
  unfold assign_priority.
  repeat match goal with |- context [if ?b then _ else _] => destruct b end; auto.
Qed.

(** X1: whatever the row holds, the detected archetype is one of the four
    keys of [COMPANY_DNA_PROFILES], and each of the three template tables
    has an entry under it: with auto-detect on, the "Mid-Market" fallback
    of the tables is never what selects a bundle. *)
Theorem detect_company_dna_is_profile_key
    (row : gmap string value)
    (first_name company pain value_prop sender_name : string) :
  detect_company_dna row ∈
    ["High-Growth Startup"; "Enterprise"; "Mid-Market"; "Agency/Consultancy"] ∧
  is_Some (COMPANY_DNA_PROFILES !! detect_company_dna row) ∧
  is_Some (subjects first_name company value_prop !! detect_company_dna row) ∧
  is_Some (templates first_name company pain value_prop sender_name
             !! detect_company_dna row) ∧
  is_Some (messages first_name company value_prop !! detect_company_dna row).
Proof.
  destruct (detect_company_dna_cases row) as [-> | [-> | [-> | ->]]];
    (split; [apply list_elem_of_In; simpl; tauto | repeat split; by eexists]).
Qed.

(** X2: the priority of a row is always one of the three keys of
    [PRIORITY_CRITERIA], so each option of the priority filter but "All"
    names a priority a row can have, and no row has another. *)
Theorem assign_priority_is_criteria_key (row : gmap string value) :
  assign_priority row ∈ PRIORITY_CRITERIA.*1 ∧
  assign_priority row ∈ priority_options ∧
  assign_priority row ≠ "All".
Proof.
  destruct (assign_priority_cases row) as [-> | [-> | ->]];
    (split; [| split; [| done]]); apply list_elem_of_In; simpl; tauto.
Qed.

(** ** What a returned row is made of *)

Lemma process_row_ok row value_prop sender_name auto_detect_dna r :
  process_row row value_prop sender_name auto_detect_dna = Ok r →
  ∃ from_name,
    name_fallback (row_dict_of row) = Ok from_name ∧
    let lead_data := lead_data_with (row_dict_of row) from_name in
    let company_dna :=
      if auto_detect_dna then VStr (detect_company_dna lead_data)
      else get (row_dict_of row) "company_dna" (VStr "Mid-Market") in
    First_Name r = get lead_data "first_name" (VStr "there") ∧
    Company r = get lead_data "company" (VStr "your company") ∧
    Priority r = assign_priority lead_data ∧
    Company_DNA r = company_dna ∧
    generate_email_subject lead_data company_dna value_prop = Ok (Email_Subject r) ∧
    generate_email_body lead_data company_dna value_prop sender_name
      = Ok (Email_Body r) ∧
    generate_linkedin_message lead_data company_dna value_prop
      = Ok (LinkedIn_Message r).
Proof.
  intros Hr.
  destruct (name_fallback (row_dict_of row)) as [from_name|e] eqn:Hfb.
  - destruct (process_row_returns row value_prop sender_name auto_detect_dna
                from_name Hfb) as (subject & body & message & Hs & Hb & Hm & Hrow).
    cbv zeta in Hs, Hb, Hm, Hrow. rewrite Hrow in Hr. injection Hr as <-.
    exists from_name. split; [done |]. cbv zeta. cbn [First_Name Company Priority
      Company_DNA Email_Subject Email_Body LinkedIn_Message]. by repeat split.
  - unfold process_row, lead_data_of in Hr. by rewrite Hfb in Hr.
Qed.

Lemma process_leads_priorities df value_prop sender_name auto_detect_dna out :
  process_leads df value_prop sender_name auto_detect_dna = Ok out →
  Forall (λ r, Priority r = "P1 - Hot" ∨ Priority r = "P2 - Warm" ∨
               Priority r = "P3 - Nurture") out.
Proof.
  intros Hout%process_leads_row_for_row. apply Forall_forall. intros r Hr.
  apply list_elem_of_lookup in Hr as [i Hi].
  destruct (Forall2_lookup_r _ _ _ _ _ Hout Hi) as (row & _ & Hrow).
  apply process_row_ok in Hrow as (from_name & _ & _ & _ & -> & _).
  apply assign_priority_cases.
Qed.

Lemma with_priority_lengths out :
  Forall (λ r, Priority r = "P1 - Hot" ∨ Priority r = "P2 - Warm" ∨
               Priority r = "P3 - Nurture") out →
  (length (with_priority "P1 - Hot" out) + length (with_priority "P2 - Warm" out)
   + length (with_priority "P3 - Nurture" out) = length out)%nat.
Proof.
  unfold with_priority.
  induction 1 as [|r out Hr _ IH]; [done |].
  rewrite !filter_cons.
  destruct Hr as [Hr | [Hr | Hr]]; rewrite Hr;
    repeat case_decide; try done; simpl; lia.
Qed.

(** X3: on the table [process_leads] returns for an upload with rows, the
    metrics row is consistent: "Total Leads" is the number of rows of the
    uploaded table, and the three priority counts add up to it.  For an
    upload without rows the results table has no [Priority] column and
    computing the counts raises [KeyError]. *)
Theorem priority_metrics_add_up
    (df : list raw_record) (value_prop sender_name : string) (auto_detect_dna : bool)
    (results_df : list result_row) :
  process_leads df value_prop sender_name auto_detect_dna = Ok results_df →
  match priority_metrics results_df with
  | Ok m =>
      df ≠ [] ∧
      total_leads m = length df ∧
      (p1_count m + p2_count m + p3_count m = total_leads m)%nat
  | Raise e => df = [] ∧ e = KeyError
  end.
Proof.
  intros Hout.
  assert (length results_df = length df) as Hlen.
  { apply process_leads_row_for_row in Hout. symmetry. by eapply Forall2_length. }
  pose proof (with_priority_lengths results_df
                (process_leads_priorities _ _ _ _ _ Hout)) as Hsum.
  unfold priority_metrics. destruct results_df as [|r results_df].
  - split; [| done]. by destruct df.
  - cbn [total_leads p1_count p2_count p3_count].
    split; [by destruct df |]. split; [exact Hlen | exact Hsum].
Qed.

Lemma priority_metrics_add_up_witness :
  ∃ results_df m,
    process_leads [jane; empty_cells_row] "X" "Y" true = Ok results_df ∧
    priority_metrics results_df = Ok m ∧
    total_leads m = 2%nat ∧
    (p1_count m + p2_count m + p3_count m = 2)%nat.
Proof.
  assert (Forall (λ row, name_usable (row_dict_of row) = true)
            [jane; empty_cells_row]) as Hdf by (repeat constructor).
  destruct (process_leads_returns "X" "Y" true _ Hdf) as (out & Hout & _).
  pose proof (priority_metrics_add_up _ _ _ _ _ Hout) as H.
  destruct (priority_metrics out) as [m|e] eqn:Hm.
  - destruct H as (_ & Htotal & Hsum).
    exists out, m. split; [exact Hout |]. split; [exact Hm |].
    split; [exact Htotal |]. rewrite Hsum. exact Htotal.
  - destruct H as [H _]. discriminate H.
Defined.

(** The upload of a file with a header line and no row. *)
Lemma priority_metrics_of_empty_upload value_prop sender_name auto_detect_dna :
  (results_df ← process_leads [] value_prop sender_name auto_detect_dna;
   priority_metrics results_df) = Raise KeyError.
Proof. reflexivity. Qed.

(** X4: in the preview tab, "All" shows the whole table, and every row of
    the table [process_leads] returns is shown under exactly one of the
    other options: the filter never hides a row from every view and never
    shows it twice. *)
Theorem every_row_under_one_priority_option
    (df : list raw_record) (value_prop sender_name : string) (auto_detect_dna : bool)
    (results_df : list result_row) (r : result_row) :
  process_leads df value_prop sender_name auto_detect_dna = Ok results_df →
  r ∈ results_df →
  filtered_df "All" results_df = results_df ∧
  ∃ option,
    option ∈ priority_options ∧ option ≠ "All" ∧
    r ∈ filtered_df option results_df ∧
    ∀ other, other ≠ "All" → r ∈ filtered_df other results_df → other = option.
Proof.
  intros Hout Hr. split; [reflexivity |].
  pose proof (process_leads_priorities _ _ _ _ _ Hout) as Hall.
  rewrite Forall_forall in Hall. specialize (Hall r Hr).
  exists (Priority r). split; [| split; [| split]].
  - destruct Hall as [-> | [-> | ->]]; apply list_elem_of_In; simpl; tauto.
  - by destruct Hall as [-> | [-> | ->]].
  - unfold filtered_df, with_priority.
    destruct Hall as [H | [H | H]]; rewrite H; simpl;
      apply list_elem_of_filter; by rewrite H.
  - intros other Hother. unfold filtered_df, with_priority.
    apply String.eqb_neq in Hother. rewrite Hother.
    by intros [? _]%list_elem_of_filter.
Qed.

Lemma every_row_under_one_priority_option_witness :
  ∃ results_df r option,
    process_leads [jane] "X" "Y" true = Ok results_df ∧
    r ∈ results_df ∧
    option ≠ "All" ∧
    r ∈ filtered_df option results_df.
Proof.
  assert (Forall (λ row, name_usable (row_dict_of row) = true) [jane])
    as Hdf by (repeat constructor).
  destruct (process_leads_returns "X" "Y" true _ Hdf) as (out & Hout & Hlen & _).
  destruct out as [|r out]; [discriminate Hlen |].
  assert (r ∈ r :: out) as Hr by apply list_elem_of_here.
  destruct (every_row_under_one_priority_option _ _ _ _ _ r Hout Hr)
    as (_ & option & _ & Hne & Hin & _).
  exists (r :: out), r, option.
  split; [exact Hout |]. split; [exact Hr |]. split; [exact Hne | exact Hin].
Defined.

(** ** Column names *)

Section column_names.
Implicit Types (k key : string) (c : ascii).

Local Ltac by_cases_on c :=
  destruct c as [[] [] [] [] [] [] [] []]; vm_compute; try done.

(** What key normalisation does to one character. *)
Let normalize_char c : ascii :=
  if Ascii.eqb (lower_char c) " " then "_"%char else lower_char c.

Lemma normalize_key_cons c k :
  normalize_key (String c k) = String (normalize_char c) (normalize_key k).
Proof. reflexivity. Qed.

Lemma normalize_char_idempotent c :
  normalize_char (normalize_char c) = normalize_char c.
Proof. by_cases_on c. Qed.

Lemma normalize_char_lower c : lower_char (normalize_char c) = normalize_char c.
Proof. by_cases_on c. Qed.

Lemma normalize_char_not_space c : Ascii.eqb (normalize_char c) " " = false.
Proof. by_cases_on c. Qed.

Lemma normalize_key_idempotent k : normalize_key (normalize_key k) = normalize_key k.
Proof.
  induction k as [|c k IH]; [done |].
  by rewrite !normalize_key_cons, normalize_char_idempotent, IH.
Qed.

Lemma normalize_key_lower k : lower (normalize_key k) = normalize_key k.
Proof.
  induction k as [|c k IH]; [done |].
  rewrite normalize_key_cons. cbn [lower]. by rewrite normalize_char_lower, IH.
Qed.

Lemma normalize_key_no_space k : contains " " (normalize_key k) = false.
Proof.
  induction k as [|c k IH]; [done |].
  rewrite normalize_key_cons. cbn [contains String.prefix]. rewrite IH, orb_false_r.
  pose proof (normalize_char_not_space c) as Hc.
  destruct (ascii_dec " " (normalize_char c)) as [E|]; [| done].
  rewrite <- E in Hc. discriminate Hc.
Qed.

(** The dictionary built by the comprehension, started from [d]: a key has
    the value of the last column that normalises to it, else what [d]
    had. *)
Lemma foldl_insert_lookup (row : raw_record) (d : gmap string value) key :
  foldl (λ d kv, <[normalize_key kv.1 := kv.2]> d) d row !! key =
    match last_column key row with
    | Some w => Some w
    | None => d !! key
    end.
Proof.
  revert d; induction row as [|[k v] rest IH]; intros d; [done |].
  cbn [foldl last_column fst snd]. rewrite IH.
  destruct (last_column key rest); [done |].
  rewrite lookup_insert.
  destruct (String.eqb_spec (normalize_key k) key); by case_decide.
Qed.

Lemma last_column_app key (row : raw_record) k v :
  last_column key (row ++ [(k, v)])%list =
    if String.eqb (normalize_key k) key then Some v else last_column key row.
Proof.
  induction row as [|[k' v'] rest IH]; [done |].
  cbn [app last_column]. rewrite IH.
  destruct (String.eqb (normalize_key k) key); [done |].
  by destruct (last_column key rest).
Qed.

End column_names.

(** X5: key normalisation is idempotent, and a normalised column name has
    no space and no upper-case letter left: a name already written as the
    Normalizer looks it up ("first_name", "company_size") is untouched. *)
Theorem normalize_key_canonical (k : string) :
  normalize_key (normalize_key k) = normalize_key k ∧
  contains " " (normalize_key k) = false ∧
  lower (normalize_key k) = normalize_key k.
Proof.
  split; [apply normalize_key_idempotent |].
  split; [apply normalize_key_no_space | apply normalize_key_lower].
Qed.

(** X6: after key normalisation a row holds, under each key, the value of
    the LAST column whose name normalises to that key, and nothing under a
    key no column normalises to; so of two columns such as "Company" and
    "company" the later one is the one read. *)
Theorem row_dict_of_last_column_wins (row : raw_record) (key k : string) (v : value) :
  row_dict_of row !! key = last_column key row ∧
  row_dict_of (row ++ [(k, v)])%list !! normalize_key k = Some v ∧
  (row_dict_of row !! key = None ↔
     Forall (λ kv, normalize_key kv.1 ≠ key) row).
Proof.
  assert (∀ r, row_dict_of r !! key = last_column key r) as Hlookup.
  { intros r. unfold row_dict_of. rewrite foldl_insert_lookup.
    by destruct (last_column key r). }
  split; [apply Hlookup |]. split.
  - unfold row_dict_of. rewrite foldl_insert_lookup, last_column_app.
    by rewrite String.eqb_refl.
  - rewrite Hlookup. induction row as [|[k' v'] rest IH].
    + split; [by constructor | done].
    + cbn [last_column]. rewrite Forall_cons. cbn [fst].
      destruct (last_column key rest) as [w|].
      * split; [done | intros [_ H]; by apply IH in H].
      * destruct (String.eqb_spec (normalize_key k') key) as [E | E].
        -- split; [done | by intros [? _]].
        -- split; [intros _; split; [done | by apply IH] | done].
Qed.

(** ** How a row fails *)

Lemma name_fallback_failure_modes (row_dict : gmap string value) :
  match name_fallback row_dict with
  | Ok _ => name_blank row_dict = false ∧ name_not_text row_dict = false
  | Raise e =>
      (e = IndexError ∧ name_blank row_dict = true) ∨
      (e = AttributeError ∧ name_not_text row_dict = true)
  end.
Proof.
  unfold name_fallback, name_blank, name_not_text, get_truthy, get.
  destruct (row_dict !! "name") as [[s|n|b|]|] eqn:E;
    cbn [truthy default from_option id value_split]; try done.
  - destruct s as [|c s]; [done |].
    destruct (split (String c s)) as [|x l] eqn:Es; [by left | done].
  - destruct (negb (n =? 0)%Z); [by right | done].
  - destruct b; [by right | done].
  - by right.
Qed.

(** X7: a row fails in exactly two ways, both on its [name] cell and both
    whatever its other columns hold (a [first_name] column included): a
    cell of blanks only raises [IndexError], a true cell that is not a
    string (NaN, a non-zero number) raises [AttributeError].  Every other
    row gets its result row; nothing after the Normalizer raises. *)
Theorem process_row_failure_modes
    (row : raw_record) (value_prop sender_name : string) (auto_detect_dna : bool) :
  match process_row row value_prop sender_name auto_detect_dna with
  | Ok _ =>
      name_blank (row_dict_of row) = false ∧ name_not_text (row_dict_of row) = false
  | Raise e =>
      (e = IndexError ∧ name_blank (row_dict_of row) = true) ∨
      (e = AttributeError ∧ name_not_text (row_dict_of row) = true)
  end.
Proof.
  pose proof (name_fallback_failure_modes (row_dict_of row)) as H.
  destruct (name_fallback (row_dict_of row)) as [from_name|e] eqn:Hfb.
  - destruct (process_row_returns row value_prop sender_name auto_detect_dna
                from_name Hfb) as (? & ? & ? & _ & _ & _ & ->). exact H.
  - unfold process_row, lead_data_of. rewrite Hfb. exact H.
Qed.

(** ** Tables put end to end *)

Section concatenation.
Context (value_prop sender_name : string) (auto_detect_dna : bool).

(** What the loop has built so far plays no part in what it builds
    next. *)
Lemma process_rows_from rows results :
  process_rows rows value_prop sender_name auto_detect_dna results =
    (new ← process_rows rows value_prop sender_name auto_detect_dna [];
     Ok (results ++ new)%list).
Proof.
  revert results; induction rows as [|row rest IH]; intros results;
    cbn [process_rows mbind result_bind].
  - by rewrite app_nil_r.
  - destruct (process_row row value_prop sender_name auto_detect_dna)
      as [r|e]; cbn [mbind result_bind]; [| done].
    rewrite (IH (results ++ [r])%list), (IH ([] ++ [r])%list).
    destruct (process_rows rest value_prop sender_name auto_detect_dna [])
      as [new|e]; cbn [mbind result_bind]; [| done].
    by rewrite <- app_assoc.
Qed.

Lemma process_rows_app rows1 rows2 results :
  process_rows (rows1 ++ rows2) value_prop sender_name auto_detect_dna results =
    (middle ← process_rows rows1 value_prop sender_name auto_detect_dna results;
     process_rows rows2 value_prop sender_name auto_detect_dna middle).
Proof.
  revert results; induction rows1 as [|row rest IH]; intros results;
    cbn [app process_rows mbind result_bind]; [done |].
  destruct (process_row row value_prop sender_name auto_detect_dna)
    as [r|e]; cbn [mbind result_bind]; [apply IH | done].
Qed.

(** The loop stops at the first row that raises. *)
Lemma process_leads_stops_at good bad rest out e :
  process_leads good value_prop sender_name auto_detect_dna = Ok out →
  process_row bad value_prop sender_name auto_detect_dna = Raise e →
  process_leads (good ++ bad :: rest) value_prop sender_name auto_detect_dna = Raise e.
Proof.
  unfold process_leads. intros Hgood Hbad.
  rewrite process_rows_app, Hgood. cbn [mbind result_bind process_rows].
  by rewrite Hbad.
Qed.

End concatenation.

(** X8: processing two tables put end to end is processing the first, then
    the second, and putting the results end to end; if either raises, so
    does the whole, with the exception of the first that does. *)
Theorem process_leads_app
    (df1 df2 : list raw_record) (value_prop sender_name : string)
    (auto_detect_dna : bool) :
  process_leads (df1 ++ df2) value_prop sender_name auto_detect_dna =
    (out1 ← process_leads df1 value_prop sender_name auto_detect_dna;
     out2 ← process_leads df2 value_prop sender_name auto_detect_dna;
     Ok (out1 ++ out2)%list).
Proof.
  unfold process_leads. rewrite process_rows_app.
  destruct (process_rows df1 value_prop sender_name auto_detect_dna [])
    as [out1|e]; cbn [mbind result_bind]; [| done].
  apply process_rows_from.
Qed.

(** X9: the batch is all or nothing.  When the rows before some row are
    fine and that row has a blank or non-string [name] cell, the whole call
    raises that row's exception, an [IndexError] or an [AttributeError]:
    the results of the rows before it are lost and the rows after it are
    never looked at. *)
Theorem process_leads_first_failure
    (good : list raw_record) (bad : raw_record) (rest : list raw_record)
    (value_prop sender_name : string) (auto_detect_dna : bool) :
  Forall (λ row, name_usable (row_dict_of row) = true) good →
  name_usable (row_dict_of bad) = false →
  ∃ e,
    process_row bad value_prop sender_name auto_detect_dna = Raise e ∧
    (e = IndexError ∨ e = AttributeError) ∧
    process_leads (good ++ bad :: rest) value_prop sender_name auto_detect_dna
      = Raise e.
Proof.
  intros Hgood Hbad.
  destruct (process_leads_returns value_prop sender_name auto_detect_dna good Hgood)
    as (out & Hout & _).
  assert (∃ e, process_row bad value_prop sender_name auto_detect_dna = Raise e ∧
               (e = IndexError ∨ e = AttributeError)) as (e & He & Hkind).
  { destruct (process_row_raises bad value_prop sender_name auto_detect_dna Hbad)
      as [H | H]; eexists; (split; [exact H | auto]). }
  exists e. split; [exact He |]. split; [exact Hkind |].
  by eapply process_leads_stops_at.
Qed.

Lemma process_leads_first_failure_witness :
  Forall (λ row, name_usable (row_dict_of row) = true) [jane] ∧
  name_usable (row_dict_of blank_name_row) = false ∧
  process_leads ([jane] ++ blank_name_row :: [jane]) "X" "Y" true = Raise IndexError.
Proof.
  assert (Forall (λ row, name_usable (row_dict_of row) = true) [jane])
    as Hgood by (repeat constructor).
  assert (name_usable (row_dict_of blank_name_row) = false) as Hbad by reflexivity.
  split; [exact Hgood | split; [exact Hbad |]].
  destruct (process_leads_first_failure [jane] blank_name_row [jane] "X" "Y" true
              Hgood Hbad) as (e & He & _ & Hraise).
  rewrite Hraise. f_equal.
  assert (process_row blank_name_row "X" "Y" true = Raise IndexError) as He'
    by reflexivity.
  rewrite He' in He. by injection He as <-.
Defined.

(** X10: pressing "Generate Scripts" either stores a table with one result
    row per uploaded row, or, as soon as one row has a blank or non-string
    [name] cell, stores nothing: the session keeps whatever results it had
    before (none, or those of an earlier table) and the exception is
    reported. *)
Theorem generate_scripts_all_or_nothing
    (session_results : option (list result_row))
    (df : list raw_record) (value_prop sender_name : string) (auto_detect : bool) :
  match generate_scripts_clicked session_results df value_prop sender_name auto_detect with
  | (stored, None) =>
      ∃ results_df,
        stored = Some results_df ∧ length results_df = length df ∧
        Forall (λ row, name_usable (row_dict_of row) = true) df
  | (stored, Some e) =>
      stored = session_results ∧
      (e = IndexError ∨ e = AttributeError) ∧
      Exists (λ row, name_usable (row_dict_of row) = false) df
  end.
Proof.
  unfold generate_scripts_clicked.
  destruct (decide (Forall (λ row, name_usable (row_dict_of row) = true) df))
    as [Hall | Hsome].
  - destruct (process_leads_returns value_prop sender_name auto_detect df Hall)
      as (out & -> & Hlen & _). by exists out.
  - apply not_Forall_Exists in Hsome; [| intros row; apply _].
    assert (Exists (λ row, name_usable (row_dict_of row) = false) df) as Hbad.
    { eapply Exists_impl; [exact Hsome |]. intros row H. simpl in H.
      by destruct (name_usable (row_dict_of row)). }
    clear Hsome.
    assert (∃ good bad rest, df = (good ++ bad :: rest)%list ∧
              Forall (λ row, name_usable (row_dict_of row) = true) good ∧
              name_usable (row_dict_of bad) = false) as (good & bad & rest & -> & Hg & Hb).
    { clear -Hbad. induction df as [|row df IH]; [by apply Exists_nil in Hbad |].
      destruct (name_usable (row_dict_of row)) eqn:Hrow.
      - apply Exists_cons in Hbad as [Hbad | Hbad]; [congruence |].
        destruct (IH Hbad) as (good & bad & rest & -> & Hg & Hb).
        exists (row :: good), bad, rest. split; [done |]. split; [| done].
        by constructor.
      - exists [], row, df. by repeat split. }
    assert (∃ e, (e = IndexError ∨ e = AttributeError) ∧
              process_leads (good ++ bad :: rest) value_prop sender_name auto_detect
                = Raise e) as (e & Hkind & ->).
    { destruct (process_leads_returns value_prop sender_name auto_detect good Hg)
        as (out & Hout & _).
      destruct (process_row_raises bad value_prop sender_name auto_detect Hb)
        as [He | He]; eexists;
        (split; [| by eapply process_leads_stops_at]); auto. }
    split; [done |]. split; [done | done].
Qed.

(** ** The generators on any dictionary *)

Section text.
Implicit Types (a b s x : string).

Lemma app_assoc' a b s : (a +:+ b) +:+ s = a +:+ b +:+ s.
Proof. induction a as [|c a IH]; [done |]. by rewrite !app_cons, IH. Qed.

Lemma ends_with_refl s : ∃ front, s = front +:+ s.
Proof. by exists EmptyString. Qed.

Lemma ends_with_app a b s :
  (∃ front, b = front +:+ s) → ∃ front, a +:+ b = front +:+ s.
Proof. intros [front ->]. exists (a +:+ front). by rewrite app_assoc'. Qed.

Lemma occurs_here x b : occurs x (x +:+ b).
Proof. by exists EmptyString, b. Qed.

Lemma occurs_later a b x : occurs x b → occurs x (a +:+ b).
Proof.
  intros (before & after & ->). exists (a +:+ before), after.
  by rewrite app_assoc'.
Qed.

End text.

#[local] Ltac find_end := repeat apply ends_with_app; apply ends_with_refl.
#[local] Ltac find_occurrence := repeat first [apply occurs_here | apply occurs_later].

Lemma first_name_of_cases (row : gmap string value) :
  match first_name_of row with
  | Ok first_name =>
      (row !! "name" = None ∧ first_name = get row "first_name" (VStr "there")) ∨
      (∃ s word rest, row !! "name" = Some (VStr s) ∧ split s = word :: rest ∧
                      first_name = get row "first_name" (VStr word))
  | Raise e =>
      (e = IndexError ∧ ∃ s, row !! "name" = Some (VStr s) ∧ split s = []) ∨
      (e = AttributeError ∧ ∃ v, row !! "name" = Some v ∧ ∀ s, v ≠ VStr s)
  end.
Proof.
  unfold first_name_of, get.
  destruct (row !! "name") as [[s|n|b|]|] eqn:E;
    cbn [default from_option id value_split mbind result_bind];
    try (right; split; [done |]; eexists; split; [done | done]).
  - destruct (split s) as [|word rest] eqn:Es; cbn [item0 mbind result_bind].
    + left. split; [done |]. by exists s.
    + right. by exists s, word, rest.
  - by left.
Qed.

Section any_row.
Context (row : gmap string value) (first_name : value).
Context (Hfirst : first_name_of row = Ok first_name).

Lemma generate_email_subject_named company_dna value_prop :
  ∃ subject, generate_email_subject row company_dna value_prop = Ok subject.
Proof using Hfirst.
  unfold generate_email_subject. rewrite Hfirst. cbn [mbind result_bind].
  unfold subjects. rewrite getitem_mid_market. cbn [mbind result_bind].
  match goal with |- ∃ _, item0 (get_by_value ?b _ ?d) = _ =>
    pose proof (get_by_value_known _ _ _ _ company_dna : get_by_value b company_dna d ∈ _) as Hin
  end.
  repeat (apply elem_of_cons in Hin as [-> | Hin]; [by eexists |]).
  by apply elem_of_nil in Hin.
Qed.

Lemma generate_linkedin_message_named company_dna value_prop :
  ∃ message, generate_linkedin_message row company_dna value_prop = Ok message.
Proof using Hfirst.
  unfold generate_linkedin_message. rewrite Hfirst. cbn [mbind result_bind].
  unfold messages. rewrite getitem_mid_market. by eexists.
Qed.

Lemma generate_email_body_named company_dna value_prop sender_name :
  ∃ body, generate_email_body row company_dna value_prop sender_name = Ok body.
Proof using Hfirst.
  unfold generate_email_body. rewrite Hfirst.
  change (getitem COMPANY_DNA_PROFILES "Mid-Market") with
    (Ok {| pain_points := ["growing pains"; "process optimization"; "competitive pressure"];
           values := ["efficiency"; "growth"; "partnership"];
           tone := "balanced and consultative" |}).
  cbn [mbind result_bind].
  match goal with |- context [get_by_value COMPANY_DNA_PROFILES company_dna ?d] =>
    pose proof (get_by_value_known _ _ _ _ company_dna
                  : get_by_value COMPANY_DNA_PROFILES company_dna d ∈ _) as Hin
  end.
  repeat (apply elem_of_cons in Hin as [-> | Hin]; [by eexists |]).
  by apply elem_of_nil in Hin.
Qed.

End any_row.

(** X12: whatever the archetype key, a returned email body opens with
    "Hi <first name>,", closes with the sender's name, and names the
    company and the value proposition. *)
Theorem email_body_shape
    (row : gmap string value) (first_name company_dna : value)
    (value_prop sender_name body : string) :
  first_name_of row = Ok first_name →
  generate_email_body row company_dna value_prop sender_name = Ok body →
  (∃ rest, body = "Hi " +:+ str first_name +:+ "," +:+ rest) ∧
  (∃ front, body = front +:+ sender_name) ∧
  occurs (str (get row "company" (VStr "your company"))) body ∧
  occurs value_prop body.
Proof.
  intros Hfirst Hbody. unfold generate_email_body in Hbody.
  rewrite Hfirst in Hbody.
  change (getitem COMPANY_DNA_PROFILES "Mid-Market") with
    (Ok {| pain_points := ["growing pains"; "process optimization"; "competitive pressure"];
           values := ["efficiency"; "growth"; "partnership"];
           tone := "balanced and consultative" |}) in Hbody.
  cbn [mbind result_bind] in Hbody.
  match type of Hbody with
  | context [get_by_value COMPANY_DNA_PROFILES company_dna ?d] =>
      pose proof (get_by_value_known _ _ _ _ company_dna
                    : get_by_value COMPANY_DNA_PROFILES company_dna d ∈ _) as Hprofile
  end.
  repeat (apply elem_of_cons in Hprofile as [Hprofile | Hprofile];
          [rewrite Hprofile in Hbody; clear Hprofile |]);
    [.. | by apply elem_of_nil in Hprofile];
    cbn [pain_points item0 mbind result_bind] in Hbody;
    unfold templates in Hbody; rewrite getitem_mid_market in Hbody;
    cbn [mbind result_bind] in Hbody;
    match type of Hbody with
    | Ok (get_by_value ?b _ ?d) = _ =>
        pose proof (get_by_value_known _ _ _ _ company_dna
                      : get_by_value b company_dna d ∈ _) as Htemplate
    end;
    (repeat (apply elem_of_cons in Htemplate as [Htemplate | Htemplate];
            [rewrite Htemplate in Hbody; clear Htemplate; injection Hbody as <- |]);
    [.. | by apply elem_of_nil in Htemplate]);
    (split; [by eexists | split; [find_end | split; find_occurrence]]).
Qed.

(** X11: called on any dictionary, the three generators fail together and
    for one reason only, the [name] entry: a string without a word (the
    empty string included, which the Normalizer lets through) raises
    [IndexError], an entry that is not a string raises [AttributeError],
    and both do so even when [first_name] is there.  Otherwise all three
    return, with [first_name] if the dictionary has it, else the first
    word of [name], else "there". *)
Theorem generators_fail_only_on_name
    (row : gmap string value) (company_dna : value) (value_prop sender_name : string) :
  match first_name_of row with
  | Ok first_name =>
      ((row !! "name" = None ∧ first_name = get row "first_name" (VStr "there")) ∨
       (∃ s word rest, row !! "name" = Some (VStr s) ∧ split s = word :: rest ∧
                       first_name = get row "first_name" (VStr word))) ∧
      ∃ subject body message,
        generate_email_subject row company_dna value_prop = Ok subject ∧
        generate_email_body row company_dna value_prop sender_name = Ok body ∧
        generate_linkedin_message row company_dna value_prop = Ok message
  | Raise e =>
      ((e = IndexError ∧ ∃ s, row !! "name" = Some (VStr s) ∧ split s = []) ∨
       (e = AttributeError ∧ ∃ v, row !! "name" = Some v ∧ ∀ s, v ≠ VStr s)) ∧
      generate_email_subject row company_dna value_prop = Raise e ∧
      generate_email_body row company_dna value_prop sender_name = Raise e ∧
      generate_linkedin_message row company_dna value_prop = Raise e
  end.
Proof.
  pose proof (first_name_of_cases row) as Hcases.
  destruct (first_name_of row) as [first_name|e] eqn:Hfirst.
  - split; [exact Hcases |].
    destruct (generate_email_subject_named row first_name Hfirst company_dna value_prop)
      as [subject Hs].
    destruct (generate_email_body_named row first_name Hfirst company_dna value_prop
                sender_name) as [body Hb].
    destruct (generate_linkedin_message_named row first_name Hfirst company_dna
                value_prop) as [message Hm].
    by exists subject, body, message.
  - split; [exact Hcases |].
    unfold generate_email_subject, generate_email_body, generate_linkedin_message.
    by rewrite Hfirst.
Qed.

(** X13: the subject line never depends on the value proposition: the two
    subject templates that mention it are never the first of their
    bundle, and only the first is used. *)
Theorem email_subject_ignores_value_prop
    (row : gmap string value) (company_dna : value) (value_prop value_prop' : string) :
  generate_email_subject row company_dna value_prop =
  generate_email_subject row company_dna value_prop'.
Proof.
  unfold generate_email_subject.
  destruct (first_name_of row) as [first_name|e]; cbn [mbind result_bind]; [| done].
  unfold subjects. rewrite !getitem_mid_market. cbn [mbind result_bind].
  destruct company_dna as [s| | |]; try done.
  unfold get_by_value, get. rewrite !lookup_insert.
  by repeat case_decide.
Qed.

(** ** Truncation *)

(** X14: a connection message cut for length is exactly 298 characters
    long and keeps the first 295 characters of the rendered template; one
    of at most 300 characters is unchanged; cutting twice is cutting
    once. *)
Theorem truncate_message_exact (msg : string) :
  ((300 < String.length msg)%nat →
     String.length (truncate_message msg) = 298%nat ∧
     take 295 (truncate_message msg) = take 295 msg) ∧
  ((String.length msg <= 300)%nat → truncate_message msg = msg) ∧
  truncate_message (truncate_message msg) = truncate_message msg.
Proof.
  assert ((300 < String.length msg)%nat →
          truncate_message msg = take 295 msg +:+ "..." ∧
          String.length (truncate_message msg) = 298%nat) as Hlong.
  { intros H. destruct (truncate_message_cases msg) as (Hl & _).
    rewrite (Hl H). split; [done |].
    rewrite length_app, length_take_all by lia. reflexivity. }
  assert (∀ m, (String.length m <= 300)%nat → truncate_message m = m) as Hshort.
  { intros m H. destruct (truncate_message_cases m) as (_ & Hs & _). by apply Hs. }
  split; [| split].
  - intros H. destruct (Hlong H) as [E Hlen]. split; [done |].
    rewrite E. apply take_app_all, length_take_all. lia.
  - apply Hshort.
  - destruct (Nat.ltb_spec 300 (String.length msg)) as [H | H].
    + apply Hshort. destruct (Hlong H) as [_ ->]. lia.
    + by rewrite !(Hshort msg H).
Qed.

Lemma truncate_message_exact_witness :
  (300 < String.length (long_value_prop +:+ long_value_prop))%nat ∧
  String.length (truncate_message (long_value_prop +:+ long_value_prop)) = 298%nat.
Proof.
  assert (300 < String.length (long_value_prop +:+ long_value_prop))%nat as Hlong
    by (vm_compute; lia).
  split; [exact Hlong |].
  destruct (truncate_message_exact (long_value_prop +:+ long_value_prop))
    as (Hlen & _ & _).
  apply (Hlen Hlong).
Defined.

(** X15: every row of the table [process_leads] returns has a connection
    message of at most 300 characters, with auto-detect on or off and
    whatever the [company_dna] cells hold. *)
Theorem every_linkedin_message_within_limit
    (df : list raw_record) (value_prop sender_name : string) (auto_detect_dna : bool)
    (results_df : list result_row) :
  process_leads df value_prop sender_name auto_detect_dna = Ok results_df →
  Forall (λ r, (String.length (LinkedIn_Message r) <= 300)%nat) results_df.
Proof.
  intros Hout%process_leads_row_for_row. apply Forall_forall. intros r Hr.
  apply list_elem_of_lookup in Hr as [i Hi].
  destruct (Forall2_lookup_r _ _ _ _ _ Hout Hi) as (row & _ & Hrow).
  apply process_row_ok in Hrow as (from_name & _ & _ & _ & _ & _ & _ & _ & Hm).
  rewrite generate_linkedin_message_lead in Hm by apply lead_data_no_name.
  cbv zeta in Hm. injection Hm as <-. apply truncate_message_length.
Qed.

(** X16: with auto-detect on, the scripts of a row all come from the
    bundle of the archetype written in its [Company DNA] cell: the first
    subject line of that archetype, its body template around the first
    pain point of its own profile, and its connection message. *)
Theorem auto_detect_uses_one_bundle
    (row : raw_record) (value_prop sender_name : string) (r : result_row) :
  process_row row value_prop sender_name true = Ok r →
  ∃ archetype subject_lines profile pain message,
    Company_DNA r = VStr archetype ∧
    subjects (str (First_Name r)) (str (Company r)) value_prop !! archetype
      = Some subject_lines ∧
    head subject_lines = Some (Email_Subject r) ∧
    COMPANY_DNA_PROFILES !! archetype = Some profile ∧
    head (pain_points profile) = Some pain ∧
    templates (str (First_Name r)) (str (Company r)) pain value_prop sender_name
      !! archetype = Some (Email_Body r) ∧
    messages (str (First_Name r)) (str (Company r)) value_prop !! archetype
      = Some message ∧
    LinkedIn_Message r = truncate_message message.
Proof.
  intros (from_name & _ & Hfn & Hc & _ & Hdna & Hs & Hb & Hm)%process_row_ok.
  cbv zeta in *.
  pose proof (lead_data_no_name (row_dict_of row) from_name) as Hno.
  rewrite generate_email_subject_lead in Hs by done.
  rewrite generate_linkedin_message_lead in Hm by done.
  unfold generate_email_body in Hb. rewrite first_name_of_lead in Hb by done.
  cbv zeta in Hs, Hm. rewrite Hfn, Hc, Hdna.
  exists (detect_company_dna (lead_data_with (row_dict_of row) from_name)).
  destruct (detect_company_dna_cases (lead_data_with (row_dict_of row) from_name))
    as [E | [E | [E | E]]]; rewrite E in *;
    injection Hs as <-; injection Hb as <-; injection Hm as <-;
    eexists _, _, _, _; repeat split.
Qed.

(** ** Integer cells *)

Section integer_cells.
Implicit Types (x : N) (s : string) (acc n : Z).

Lemma pretty_N_char_digit x :
  (x < 10)%N →
  is_digit (pretty_N_char x) = true ∧ digit_value (pretty_N_char x) = Z.of_N x.
Proof.
  intros H.
  assert (x = 0 ∨ x = 1 ∨ x = 2 ∨ x = 3 ∨ x = 4 ∨ x = 5 ∨ x = 6 ∨ x = 7
          ∨ x = 8 ∨ x = 9)%N as Hx by lia.
  repeat destruct Hx as [-> | Hx]; try subst x; by vm_compute.
Qed.

Lemma pretty_N_go_all_digits x s :
  all_digits s = true → all_digits (pretty_N_go x s) = true.
Proof.
  revert s. induction (N.lt_wf_0 x) as [x _ IH]; intros s Hs.
  assert (x = 0 ∨ 0 < x)%N as [-> | Hx] by lia; [by rewrite pretty_N_go_0 |].
  rewrite pretty_N_go_step by done. apply IH; [by apply N.div_lt |].
  cbn [all_digits]. rewrite Hs, andb_true_r.
  apply pretty_N_char_digit. by apply N.mod_lt.
Qed.

Lemma pretty_N_go_value x s :
  digits_value 0 (pretty_N_go x s) = digits_value (Z.of_N x) s.
Proof.
  revert s. induction (N.lt_wf_0 x) as [x _ IH]; intros s.
  assert (x = 0 ∨ 0 < x)%N as [-> | Hx] by lia; [by rewrite pretty_N_go_0 |].
  rewrite pretty_N_go_step by done. rewrite IH by (by apply N.div_lt).
  cbn [digits_value]. f_equal.
  destruct (pretty_N_char_digit (x `mod` 10)) as [_ ->]; [by apply N.mod_lt |].
  rewrite (N.div_mod x 10) at 3 by done. lia.
Qed.

Lemma pretty_N_go_nonempty x s : s ≠ EmptyString → pretty_N_go x s ≠ EmptyString.
Proof.
  revert s. induction (N.lt_wf_0 x) as [x _ IH]; intros s Hs.
  assert (x = 0 ∨ 0 < x)%N as [-> | Hx] by lia; [by rewrite pretty_N_go_0 |].
  rewrite pretty_N_go_step by done. apply IH; [by apply N.div_lt | done].
Qed.

Lemma int_digits_all_digits s acc prev :
  all_digits s = true → s ≠ EmptyString →
  int_digits acc prev s = Some (digits_value acc s).
Proof.
  revert acc prev; induction s as [|c s IH]; intros acc prev; [done |].
  cbn [all_digits int_digits digits_value].
  intros [Hc Hs]%andb_true_iff _. rewrite Hc.
  destruct s as [|c' s']; [done |]. by apply IH.
Qed.

Lemma remove_char_all_digits a s :
  is_digit a = false → all_digits s = true → remove_char a s = s.
Proof.
  intros Ha. induction s as [|c s IH]; [done |].
  cbn [all_digits remove_char]. intros [Hc Hs]%andb_true_iff.
  destruct (Ascii.eqb_spec c a) as [-> | _]; [congruence | by rewrite IH].
Qed.

(** The digits of a positive number, as [str] writes them, read back as
    that number. *)
Lemma int_digits_pretty (p : positive) :
  all_digits (pretty (Z.pos p)) = true ∧
  int_digits 0 false (pretty (Z.pos p)) = Some (Z.pos p).
Proof.
  assert (pretty (Z.pos p) = pretty_N_go (N.pos p) EmptyString) as ->.
  { unfold pretty, pretty_Z, pretty_positive, pretty, pretty_N. by case_decide. }
  assert (all_digits (pretty_N_go (N.pos p) EmptyString) = true) as Hd
    by by apply pretty_N_go_all_digits.
  split; [done |].
  rewrite int_digits_all_digits, pretty_N_go_value; [done.. |].
  rewrite pretty_N_go_step by lia. by apply pretty_N_go_nonempty.
Qed.

(** [int(str(n))] is [n], and deleting commas and plus signs changes
    nothing in between. *)
Lemma int_str_round_trip n :
  int (remove_char "+" (remove_char "," (str (VInt n)))) = Ok n.
Proof.
  destruct n as [|p|p]; cbn [str]; [done | |].
  - destruct (int_digits_pretty p) as [Hd Hv].
    rewrite (remove_char_all_digits "," (pretty (Z.pos p))) by done.
    rewrite (remove_char_all_digits "+" (pretty (Z.pos p))) by done.
    unfold int. by rewrite (int_leading_of_digits _ _ Hv).
  - destruct (int_digits_pretty p) as [Hd Hv].
    change (pretty (Z.neg p)) with ("-" +:+ pretty (Z.pos p)).
    rewrite app_cons. cbn [remove_char Ascii.eqb Bool.eqb].
    change (EmptyString +:+ pretty (Z.pos p)) with (pretty (Z.pos p)).
    rewrite (remove_char_all_digits "," (pretty (Z.pos p))) by done.
    rewrite (remove_char_all_digits "+" (pretty (Z.pos p))) by done.
    unfold int. cbn [int_leading is_int_space]. 
    change (is_int_space "-") with false. cbn [int_signed].
    change (Ascii.eqb "-" "+") with false. change (Ascii.eqb "-" "-") with true.
    cbv iota. by rewrite Hv.
Qed.

End integer_cells.

(** X17: an [employees] cell holding a non-zero integer (a numeric column,
    as read from the file) is classified by size like the string of its
    digits: [int(str(n))] gives [n] back.  A negative number is below 50
    and so "High-Growth Startup". *)
Theorem integer_employees_classified_by_size (row : gmap string value) (n : Z) :
  row !! "employees" = Some (VInt n) →
  n ≠ 0%Z →
  ((n < 50)%Z → detect_company_dna row = "High-Growth Startup") ∧
  ((50 <= n < 500)%Z → detect_company_dna row = "Mid-Market") ∧
  ((500 <= n)%Z → detect_company_dna row = "Enterprise").
Proof.
  intros Hrow Hn.
  assert (detect_company_dna row = size_based_detection n) as ->.
  { apply detect_company_dna_sized; unfold get; rewrite Hrow; cbn [default from_option id].
    - cbn [truthy]. by destruct (Z.eqb_spec n 0).
    - apply int_str_round_trip. }
  unfold size_based_detection.
  repeat split; intros ?;
    destruct (Z.ltb_spec n 50); try lia; destruct (Z.ltb_spec n 500); done || lia.
Qed.

Lemma integer_employees_classified_by_size_witness :
  let row : gmap string value :=
    <["company" := VStr "Acme Partners"]> (<["employees" := VInt 1200]> ∅) in
  row !! "employees" = Some (VInt 1200) ∧ 1200%Z ≠ 0%Z ∧
  detect_company_dna row = "Enterprise".
Proof.
  intros row.
  assert (row !! "employees" = Some (VInt 1200)) as Hrow by reflexivity.
  assert (1200%Z ≠ 0%Z) as Hn by lia.
  split; [exact Hrow | split; [exact Hn |]].
  apply (integer_employees_classified_by_size row 1200 Hrow Hn). lia.
Defined.

(** ** The first word of a name *)

Lemma app_empty_r s : s +:+ EmptyString = s.
Proof. induction s as [|c s IH]; [done |]. by rewrite app_cons, IH. Qed.

Lemma split_from_first tok s x l :
  split_from tok s = x :: l →
  ∃ blanks word rest,
    s = blanks +:+ word +:+ rest ∧ x = tok +:+ word ∧
    all_blank blanks = true ∧ no_blank word = true ∧ word_end rest = true ∧
    (tok ≠ EmptyString → blanks = EmptyString).
Proof.
  revert tok; induction s as [|c s IH]; intros tok; cbn [split_from].
  - destruct tok as [|t tok]; [done |]. intros [= <- <-].
    exists EmptyString, EmptyString, EmptyString.
    by rewrite (app_empty_r (String t tok)).
  - destruct (is_space c) eqn:Hc.
    + destruct tok as [|t tok].
      * intros (blanks & word & rest & -> & -> & Hb & Hw & Hr & _)%IH.
        exists (String c blanks), word, rest.
        repeat split; try done. cbn [all_blank]. by rewrite Hc, Hb.
      * intros [= <- <-]. exists EmptyString, EmptyString, (String c s).
        rewrite (app_empty_r (String t tok)). repeat split; try done.
    + intros (blanks & word & rest & Hs & -> & Hb & Hw & Hr & Hnil)%IH.
      rewrite Hnil in Hs by by destruct tok. cbn in Hs. subst s.
      exists EmptyString, (String c word), rest.
      repeat split; try done.
      * by rewrite app_assoc'.
      * cbn [no_blank]. by rewrite Hc, Hw.
Qed.

Lemma split_from_nil tok s :
  split_from tok s = [] → tok = EmptyString ∧ all_blank s = true.
Proof.
  revert tok; induction s as [|c s IH]; intros tok; cbn [split_from all_blank].
  - by destruct tok.
  - destruct (is_space c).
    + destruct tok; [| done]. intros [_ ->]%IH. done.
    + intros [H _]%IH. by destruct tok.
Qed.

(** X18: for a row with no [first_name] or [firstname] column and a [name]
    string that has a non-blank character, the first name of the lead is
    the first word of the name: the name is blanks, then that word, which
    is not empty and has no blank, then nothing or a blank and the
    rest. *)
Theorem first_name_is_first_word (row : raw_record) (s : string) :
  row_dict_of row !! "first_name" = None →
  row_dict_of row !! "firstname" = None →
  row_dict_of row !! "name" = Some (VStr s) →
  all_blank s = false →
  ∃ lead_data blanks word rest,
    normalize row = Ok lead_data ∧
    lead_data !! "first_name" = Some (VStr word) ∧
    s = blanks +:+ word +:+ rest ∧
    word ≠ EmptyString ∧
    all_blank blanks = true ∧ no_blank word = true ∧ word_end rest = true.
Proof.
  intros Hfirst Hfirst' Hname Hs.
  destruct (split s) as [|x l] eqn:Hsplit.
  { apply split_from_nil in Hsplit as [_ Hblank]. congruence. }
  pose proof (split_from_nonempty s EmptyString x) as Hx.
  fold (split s) in Hx. rewrite Hsplit in Hx. specialize (Hx (or_introl eq_refl)).
  destruct (split_from_first EmptyString s x l Hsplit)
    as (blanks & word & rest & Hcut & Hword & Hb & Hw & Hr & _).
  change (EmptyString +:+ word) with word in Hword. subst x.
  exists (lead_data_with (row_dict_of row) (VStr word)), blanks, word, rest.
  split; [| split; [| by repeat split]].
  - unfold normalize, lead_data_of, name_fallback, get_truthy, get.
    rewrite Hname. cbn [default from_option id value_split].
    assert (truthy (VStr s) = true) as -> by (by destruct s).
    cbn [mbind result_bind]. by rewrite Hsplit.
  - destruct (lead_data_fields (row_dict_of row) (VStr word)) as [-> _].
    cbn [first_present]. by rewrite Hfirst, Hfirst'.
Qed.

Lemma first_name_is_first_word_witness :
  row_dict_of jane !! "first_name" = None ∧
  row_dict_of jane !! "firstname" = None ∧
  row_dict_of jane !! "name" = Some (VStr "Jane Doe") ∧
  all_blank "Jane Doe" = false ∧
  ∃ lead_data word,
    normalize jane = Ok lead_data ∧
    lead_data !! "first_name" = Some (VStr word) ∧ no_blank word = true.
Proof.
  assert (row_dict_of jane !! "first_name" = None) as H1 by reflexivity.
  assert (row_dict_of jane !! "firstname" = None) as H2 by reflexivity.
  assert (row_dict_of jane !! "name" = Some (VStr "Jane Doe")) as H3 by reflexivity.
  assert (all_blank "Jane Doe" = false) as H4 by reflexivity.
  split; [exact H1 | split; [exact H2 | split; [exact H3 | split; [exact H4 |]]]].
  destruct (first_name_is_first_word jane "Jane Doe" H1 H2 H3 H4)
    as (lead_data & _ & word & _ & Hn & Hf & _ & _ & _ & Hw & _).
  exists lead_data, word. split; [exact Hn | split; [exact Hf | exact Hw]].
Defined.

(** ** The extra properties on concrete rows *)

Lemma email_body_shape_witness :
  let row : gmap string value :=
    <["first_name" := VStr "Jane"]> (<["company" := VStr "Acme Inc"]> ∅) in
  first_name_of row = Ok (VStr "Jane") ∧
  ∃ body,
    generate_email_body row (VStr "Enterprise") "X" "Leon" = Ok body ∧
    (∃ rest, body = "Hi Jane," +:+ rest) ∧
    (∃ front, body = front +:+ "Leon").
Proof.
  intros row.
  assert (first_name_of row = Ok (VStr "Jane")) as Hfirst by reflexivity.
  split; [exact Hfirst |].
  destruct (generate_email_body_named row (VStr "Jane") Hfirst (VStr "Enterprise")
              "X" "Leon") as [body Hbody].
  destruct (email_body_shape row (VStr "Jane") (VStr "Enterprise") "X" "Leon" body
              Hfirst Hbody) as (Hopen & Hclose & _).
  exists body. split; [exact Hbody | split; [exact Hopen | exact Hclose]].
Defined.

Lemma every_linkedin_message_within_limit_witness :
  ∃ results_df,
    process_leads [jane; empty_cells_row] long_value_prop "Y" false = Ok results_df ∧
    Forall (λ r, (String.length (LinkedIn_Message r) <= 300)%nat) results_df.
Proof.
  assert (Forall (λ row, name_usable (row_dict_of row) = true)
            [jane; empty_cells_row]) as Hdf by (repeat constructor).
  destruct (process_leads_returns long_value_prop "Y" false _ Hdf) as (out & Hout & _).
  exists out. split; [exact Hout |].
  exact (every_linkedin_message_within_limit _ _ _ _ _ Hout).
Defined.

Lemma auto_detect_uses_one_bundle_witness :
  ∃ r archetype profile,
    process_row jane "X" "Y" true = Ok r ∧
    Company_DNA r = VStr archetype ∧
    COMPANY_DNA_PROFILES !! archetype = Some profile.
Proof.
  assert (name_usable (row_dict_of jane) = true) as Husable by reflexivity.
  destruct (name_fallback_usable _ Husable) as (first & Hfb & _).
  destruct (process_row_returns jane "X" "Y" true (VStr first) Hfb)
    as (subject & body & message & _ & _ & _ & Hrow).
  destruct (auto_detect_uses_one_bundle jane "X" "Y" _ Hrow)
    as (archetype & _ & profile & _ & _ & Hdna & _ & _ & Hprofile & _).
  eexists _, archetype, profile.
  split; [exact Hrow | split; [exact Hdna | exact Hprofile]].
Defined.
